(** * AD936x transceiver front end: sample-rate programming and receive path

    A shallow embedding of [src/ad936x.py].  The class drives an IIO device
    through helper methods inherited from the [attribute] and [compat]
    modules ([_get_iio_attr], [_set_iio_attr], [_rx_buffered_data], ...).
    Those helpers are not part of the file; every call to one of them is an
    interaction with the outside world, recorded in a trace and answered by
    an arbitrary device handler.  The Python methods themselves are
    programs over that interface, written in a small state-and-exception
    monad that threads the attributes of [self]. *)

From Stdlib Require Import ZArith String Ascii List Bool Lia DecimalString DecimalPos QArith.
Import ListNotations.

#[local] Open Scope string_scope.
#[local] Open Scope Z_scope.

(** ** Python exceptions and fallible pure code *)

Inductive PyExc : Type :=
| ValueError (msg : string)
| Exception_ (msg : string)
| TypeError (msg : string)
| IndexError (msg : string)
| ZeroDivisionError (msg : string)
| AttributeError (msg : string)
| TransportError (msg : string).

(** A pure computation that may raise. *)
Definition Exc (A : Type) : Type := (A + PyExc)%type.

Definition ok {A : Type} (a : A) : Exc A := inl a.
Definition throw {A : Type} (e : PyExc) : Exc A := inr e.

Definition ebind {A B : Type} (x : Exc A) (f : A -> Exc B) : Exc B :=
  match x with
  | inl a => f a
  | inr e => inr e
  end.

(** ** The Python builtins used by the class *)

Module Py.

(** [str(n)] for an integer: decimal digits, with a leading minus sign for
    negative numbers.  The literal [-0] of the coefficient tables is the
    integer [0]. *)
Definition str (n : Z) : string := NilZero.string_of_int (Z.to_int n).

(** [s.split(sep)] for a one-character separator: every occurrence of the
    separator cuts, so the result is never empty and adjacent separators
    give empty fields. *)
Fixpoint split (sep : ascii) (s : string) : list string :=
  match s with
  | EmptyString => [EmptyString]
  | String c rest =>
      if Ascii.eqb c sep then EmptyString :: split sep rest
      else match split sep rest with
           | [] => [String c EmptyString]
           | w :: ws => String c w :: ws
           end
  end.

(** [xs[i]] for a list and a non-negative index. *)
Definition index {A : Type} (xs : list A) (i : nat) : Exc A :=
  match nth_error xs i with
  | Some x => ok x
  | None => throw (IndexError "list index out of range")
  end.

(** Characters that [int()] strips at both ends. *)
Definition is_space (c : ascii) : bool :=
  let n := nat_of_ascii c in
  ((9 <=? n)%nat && (n <=? 13)%nat) || ((28 <=? n)%nat && (n <=? 32)%nat).

Fixpoint lstrip (s : string) : string :=
  match s with
  | EmptyString => EmptyString
  | String c rest => if is_space c then lstrip rest else s
  end.

Fixpoint rstrip (s : string) : string :=
  match s with
  | EmptyString => EmptyString
  | String c rest =>
      match rstrip rest with
      | EmptyString => if is_space c then EmptyString else String c EmptyString
      | r => String c r
      end
  end.

Definition strip (s : string) : string := rstrip (lstrip s).

Definition digit_val (c : ascii) : option Z :=
  let n := nat_of_ascii c in
  if ((48 <=? n)%nat && (n <=? 57)%nat) then Some (Z.of_nat n - 48) else None.

(** Decimal digits, single underscores allowed between two digits. *)
Fixpoint digits (acc : Z) (after_digit : bool) (s : string) : option Z :=
  match s with
  | EmptyString => if after_digit then Some acc else None
  | String c rest =>
      match digit_val c with
      | Some d => digits (10 * acc + d) true rest
      | None =>
          if Ascii.eqb c "_"%char && after_digit then digits acc false rest
          else None
      end
  end.

(** [int(s)] for a string, base ten. *)
Definition int (s : string) : Exc Z :=
  let t := strip s in
  let r :=
    match t with
    | String "+"%char rest => digits 0 false rest
    | String "-"%char rest => option_map Z.opp (digits 0 false rest)
    | _ => digits 0 false t
    end in
  match r with
  | Some z => ok z
  | None => throw (ValueError "invalid literal for int() with base 10")
  end.

(** [a // b] on integers: floor division, [ZeroDivisionError] on zero. *)
Definition floordiv (a b : Z) : Exc Z :=
  if b =? 0 then throw (ZeroDivisionError "integer division or modulo by zero")
  else ok (a / b).

End Py.

(** ** Filter table (lines 122-173 of the [sample_rate] setter)

    The branch on the requested rate assigns the three locals [dec], [fir]
    and [taps]. *)

Record FilterProfile : Type := mkProfile {
  dec : Z;
  fir : list Z;
  taps : nat
}.

Definition fir_128_dec4 : list Z :=
  [ -15; -27; -23; -6; 17; 33; 31; 9; -23; -47; -45; -13; 34; 69;
    67; 21; -49; -102; -99; -32; 69; 146; 143; 48; -96; -204; -200;
    -69; 129; 278; 275; 97; -170; -372; -371; -135; 222; 494; 497;
    187; -288; -654; -665; -258; 376; 875; 902; 363; -500; -1201;
    -1265; -530; 699; 1748; 1906; 845; -1089; -2922; -3424; -1697;
    2326; 7714; 12821; 15921; 15921; 12821; 7714; 2326; -1697;
    -3424; -2922; -1089; 845; 1906; 1748; 699; -530; -1265; -1201;
    -500; 363; 902; 875; 376; -258; -665; -654; -288; 187; 497;
    494; 222; -135; -371; -372; -170; 97; 275; 278; 129; -69; -200;
    -204; -96; 48; 143; 146; 69; -32; -99; -102; -49; 21; 67; 69;
    34; -13; -45; -47; -23; 9; 31; 33; 17; -6; -23; -27; -15 ].

Definition fir_128_dec2 : list Z :=
  [ -0; 0; 1; -0; -2; 0; 3; -0; -5; 0; 8; -0; -11; 0; 17; -0; -24;
    0; 33; -0; -45; 0; 61; -0; -80; 0; 104; -0; -134; 0; 169; -0;
    -213; 0; 264; -0; -327; 0; 401; -0; -489; 0; 595; -0; -724; 0;
    880; -0; -1075; 0; 1323; -0; -1652; 0; 2114; -0; -2819; 0;
    4056; -0; -6883; 0; 20837; 32767; 20837; 0; -6883; -0; 4056; 0;
    -2819; -0; 2114; 0; -1652; -0; 1323; 0; -1075; -0; 880; 0;
    -724; -0; 595; 0; -489; -0; 401; 0; -327; -0; 264; 0; -213; -0;
    169; 0; -134; -0; 104; 0; -80; -0; 61; 0; -45; -0; 33; 0; -24;
    -0; 17; 0; -11; -0; 8; 0; -5; -0; 3; 0; -2; -0; 1; 0; -0; 0 ].

Definition fir_96_dec2 : list Z :=
  [ -4; 0; 8; -0; -14; 0; 23; -0; -36; 0; 52; -0; -75; 0; 104; -0;
    -140; 0; 186; -0; -243; 0; 314; -0; -400; 0; 505; -0; -634; 0;
    793; -0; -993; 0; 1247; -0; -1585; 0; 2056; -0; -2773; 0; 4022;
    -0; -6862; 0; 20830; 32767; 20830; 0; -6862; -0; 4022; 0;
    -2773; -0; 2056; 0; -1585; -0; 1247; 0; -993; -0; 793; 0; -634;
    -0; 505; 0; -400; -0; 314; 0; -243; -0; 186; 0; -140; -0; 104;
    0; -75; -0; 52; 0; -36; -0; 23; 0; -14; -0; 8; 0; -4; 0 ].

Definition fir_64_dec2 : list Z :=
  [ -58; 0; 83; -0; -127; 0; 185; -0; -262; 0; 361; -0; -488; 0;
    648; -0; -853; 0; 1117; -0; -1466; 0; 1954; -0; -2689; 0; 3960;
    -0; -6825; 0; 20818; 32767; 20818; 0; -6825; -0; 3960; 0;
    -2689; -0; 1954; 0; -1466; -0; 1117; 0; -853; -0; 648; 0; -488;
    -0; 361; 0; -262; -0; 185; 0; -127; -0; 83; 0; -58; 0 ].

Definition filter_table (rate : Z) : FilterProfile :=
  if rate <=? 20000000 then mkProfile 4 fir_128_dec4 128
  else if rate <=? 40000000 then mkProfile 2 fir_128_dec2 128
  else if rate <=? 53333333 then mkProfile 2 fir_96_dec2 96
  else mkProfile 2 fir_64_dec2 64.

(** ** The device interface

    One constructor per helper the class calls but does not define: the
    [iio] context, the attribute helpers of the [attribute] base class and
    the abstract hooks that a concrete board supplies. *)

(** A value handed to a property setter. *)
Inductive pyval : Type :=
| PyInt (z : Z)
| PyFloat (q : Q)
| PyStr (s : string).

Inductive Call : Type :=
| iio_Context (uri : string)
| find_device (ctx : Z) (name : string)
| rx_init_channels
| tx_init_channels
| rx_buffered_data
| get_iio_attr (channel attr : string) (output : bool)
| get_iio_attr_str (channel attr : string) (output : bool)
| set_iio_attr (channel attr : string) (output : bool) (value : pyval)
| set_iio_attr_int (channel attr : string) (output : bool) (value : pyval)
| set_iio_attr_float (channel attr : string) (output : bool) (value : pyval)
| get_iio_dev_attr_str (attr : string)
| set_iio_dev_attr_str (attr : string) (value : string).

(** Modelled from the spec: the result types of the helpers, which live in
    the absent [attribute] and [compat] modules.  Section 6 of the
    specification gives the attribute sink integer and string reads and a
    raw buffer of real values; handles are numbered, and [find_device]
    answers [None] when no device has the name.  Finite real values are
    kept as rationals: the class only moves them. *)
Definition Resp (c : Call) : Type :=
  match c with
  | iio_Context _ => Z
  | find_device _ _ => option Z
  | rx_init_channels | tx_init_channels => unit
  | rx_buffered_data => list Q
  | get_iio_attr _ _ _ => Z
  | get_iio_attr_str _ _ _ => string
  | set_iio_attr _ _ _ _ | set_iio_attr_int _ _ _ _
  | set_iio_attr_float _ _ _ _ => unit
  | get_iio_dev_attr_str _ => string
  | set_iio_dev_attr_str _ _ => unit
  end.

(** What a trace remembers of an answer. *)
Inductive Answer : Type :=
| A_done
| A_int (z : Z)
| A_str (s : string)
| A_handle (h : option Z)
| A_data (d : list Q)
| A_raise (e : PyExc).

Definition answer_of (c : Call) : Exc (Resp c) -> Answer :=
  match c as c0 return Exc (Resp c0) -> Answer with
  | iio_Context _ => fun r => match r with inl h => A_handle (Some h) | inr e => A_raise e end
  | find_device _ _ => fun r => match r with inl h => A_handle h | inr e => A_raise e end
  | rx_buffered_data => fun r => match r with inl d => A_data d | inr e => A_raise e end
  | get_iio_attr _ _ _ => fun r => match r with inl z => A_int z | inr e => A_raise e end
  | get_iio_attr_str _ _ _ | get_iio_dev_attr_str _ =>
      fun r => match r with inl s => A_str s | inr e => A_raise e end
  | rx_init_channels | tx_init_channels
  | set_iio_attr _ _ _ _ | set_iio_attr_int _ _ _ _ | set_iio_attr_float _ _ _ _
  | set_iio_dev_attr_str _ _ =>
      fun r => match r with inl _ => A_done | inr e => A_raise e end
  end.

(** One step of a trace: the call issued and how the device answered. *)
Inductive Event : Type :=
| Ev (c : Call) (a : Answer).

(** ** Programs over the device *)

Inductive Prog (A : Type) : Type :=
| Ret (a : A)
| Do (c : Call) (k : Exc (Resp c) -> Prog A).

Arguments Ret {A} a.
Arguments Do {A} c k.

Fixpoint pbind {A B : Type} (p : Prog A) (f : A -> Prog B) : Prog B :=
  match p with
  | Ret a => f a
  | Do c k => Do c (fun r => pbind (k r) f)
  end.

(** ** The object and the monad of its methods *)

Record complex : Type := mkComplex { re : Q; im : Q }.

(** The two shapes [self.rx_data] can take: the list built by the
    comprehension of line 268, or the single element line 272 selects. *)
Inductive rxval : Type :=
| RxList (l : list complex)
| RxItem (c : complex).

(** The attributes of [self] that the class reads or assigns; [None] is an
    attribute without a value yet ([_ctx] and [_uri_auto] come from a base
    class). *)
Record Obj : Type := mkObj {
  uri : option string;
  _uri_auto : string;
  _ctx : option Z;
  _rxadc : option Z;
  _rx_buffer_size : option Z;
  rx_data : option rxval;
  tx_data : option (list complex)
}.

Inductive Outcome (A : Type) : Type :=
| Returned (a : A)
| Raised (e : PyExc).

Arguments Returned {A} a.
Arguments Raised {A} e.

Definition M (A : Type) : Type := Obj -> Prog (Outcome A * Obj).

Definition ret {A : Type} (a : A) : M A := fun self => Ret (Returned a, self).

Definition raise {A : Type} (e : PyExc) : M A := fun self => Ret (Raised e, self).

Definition bind {A B : Type} (m : M A) (f : A -> M B) : M B :=
  fun self =>
    pbind (m self)
      (fun r => match fst r with
                | Returned a => f a (snd r)
                | Raised e => Ret (Raised e, snd r)
                end).

(** [try: m except BaseException: h]. *)
Definition try_except {A : Type} (m : M A) (h : PyExc -> M A) : M A :=
  fun self =>
    pbind (m self)
      (fun r => match fst r with
                | Returned a => Ret (Returned a, snd r)
                | Raised e => h e (snd r)
                end).

Definition call (c : Call) : M (Resp c) :=
  fun self =>
    Do c (fun r => Ret (match r with inl x => Returned x | inr e => Raised e end, self)).

Definition lift {A : Type} (x : Exc A) : M A :=
  match x with
  | inl a => ret a
  | inr e => raise e
  end.

Definition get_self : M Obj := fun self => Ret (Returned self, self).

Definition put_self (self' : Obj) : M unit := fun _ => Ret (Returned tt, self').

Definition when (b : bool) (m : M unit) : M unit := if b then m else ret tt.

Declare Scope py_scope.
Delimit Scope py_scope with py.
Notation "x <- m ;; k" := (bind m (fun x => k))
  (at level 61, m at next level, right associativity) : py_scope.
Notation "m ;; k" := (bind m (fun _ => k))
  (at level 61, right associativity) : py_scope.
#[local] Open Scope py_scope.

(** ** Running a program against a device *)

Section Run.

Variable S : Type.
Variable handle : S -> forall c : Call, Exc (Resp c) * S.

Fixpoint run {A : Type} (p : Prog A) (s : S) : list Event * A * S :=
  match p with
  | Ret a => ([], a, s)
  | Do c k =>
      let r := handle s c in
      let rest := run (k (fst r)) (snd r) in
      (Ev c (answer_of c (fst r)) :: fst (fst rest), snd (fst rest), snd rest)
  end.

(** A method call: the trace, the outcome, the object and the device
    afterwards. *)
Definition exec {A : Type} (m : M A) (self : Obj) (s : S)
  : list Event * (Outcome A * Obj) * S :=
  run (m self) s.

End Run.

Arguments run {S} handle {A} p s.
Arguments exec {S} handle {A} m self s.

Definition trace_of {A S : Type} (r : list Event * A * S) : list Event := fst (fst r).
Definition outcome_of {A S : Type} (r : list Event * (Outcome A * Obj) * S) : Outcome A :=
  fst (snd (fst r)).
Definition self_of {A S : Type} (r : list Event * (Outcome A * Obj) * S) : Obj :=
  snd (snd (fst r)).
Definition device_of {A S : Type} (r : list Event * A * S) : S := snd r.

(** ** The class [ad936x] *)

Module ad936x.

Definition _control_device_name : string := "ad9361-phy".
Definition _rx_data_device_name : string := "cf-ad9361-lpc".
Definition _tx_data_device_name : string := "cf-ad9361-dds-core-lpc".

Definition nl : string := String "010"%char EmptyString.

(** *** Inherited helpers, as calls to the device *)

Definition _get_iio_attr (channel attr : string) (output : bool) : M Z :=
  call (get_iio_attr channel attr output).
Definition _get_iio_attr_str (channel attr : string) (output : bool) : M string :=
  call (get_iio_attr_str channel attr output).
Definition _set_iio_attr (channel attr : string) (output : bool) (value : pyval) : M unit :=
  call (set_iio_attr channel attr output value).
Definition _set_iio_attr_int (channel attr : string) (output : bool) (value : pyval) : M unit :=
  call (set_iio_attr_int channel attr output value).
Definition _set_iio_attr_float (channel attr : string) (output : bool) (value : pyval) : M unit :=
  call (set_iio_attr_float channel attr output value).
Definition _get_iio_dev_attr_str (attr : string) : M string :=
  call (get_iio_dev_attr_str attr).
Definition _set_iio_dev_attr_str (attr value : string) : M unit :=
  call (set_iio_dev_attr_str attr value).
Definition _rx_init_channels : M unit := call rx_init_channels.
Definition _tx_init_channels : M unit := call tx_init_channels.
Definition _rx_buffered_data : M (list Q) := call rx_buffered_data.

(** *** Properties (lines 51-106 and 204-220) *)

Definition rx_buffer_size_set (value : Z) : M unit :=
  self <- get_self ;;
  put_self (mkObj (uri self) (_uri_auto self) (_ctx self) (_rxadc self)
                  (Some value) (rx_data self) (tx_data self)).

Definition gain_control_mode : M string :=
  _get_iio_attr_str "voltage0" "gain_control_mode" false.

Definition gain_control_mode_set (value : pyval) : M unit :=
  _set_iio_attr "voltage0" "gain_control_mode" false value.

Definition rx_hardwaregain : M Z :=
  _get_iio_attr "voltage0" "hardwaregain" false.

Definition rx_hardwaregain_set (value : pyval) : M unit :=
  mode <- gain_control_mode ;;
  when (String.eqb mode "manual")
       (_set_iio_attr_float "voltage0" "hardwaregain" false value).

Definition tx_hardwaregain : M Z :=
  _get_iio_attr "voltage0" "hardwaregain" true.

Definition tx_hardwaregain_set (value : pyval) : M unit :=
  _set_iio_attr_float "voltage0" "hardwaregain" true value.

Definition rx_rf_bandwidth : M Z :=
  _get_iio_attr "voltage0" "rf_bandwidth" false.

Definition rx_rf_bandwidth_set (value : pyval) : M unit :=
  _set_iio_attr_int "voltage0" "rf_bandwidth" false value.

Definition tx_rf_bandwidth : M Z :=
  _get_iio_attr "voltage0" "rf_bandwidth" true.

Definition tx_rf_bandwidth_set (value : pyval) : M unit :=
  _set_iio_attr_int "voltage0" "rf_bandwidth" true value.

Definition rx_lo : M Z :=
  _get_iio_attr "altvoltage0" "frequency" true.

Definition rx_lo_set (value : pyval) : M unit :=
  _set_iio_attr_int "altvoltage0" "frequency" true value.

Definition tx_lo : M Z :=
  _get_iio_attr "altvoltage1" "frequency" true.

Definition tx_lo_set (value : pyval) : M unit :=
  _set_iio_attr_int "altvoltage1" "frequency" true value.

(** *** The [sample_rate] property (lines 108-202) *)

Definition sample_rate : M Z :=
  _get_iio_attr "voltage0" "sampling_frequency" false.

(** Lines 186-187: [for i in range(taps)], started at index [i] with [n]
    rounds to go and the string built so far. *)
Fixpoint fir_config_loop (fir : list Z) (i n : nat) (acc : string) : Exc string :=
  match n with
  | O => ok acc
  | Datatypes.S n' =>
      ebind (Py.index fir i) (fun left =>
      ebind (Py.index fir i) (fun right =>
      fir_config_loop fir (Datatypes.S i) n'
        (acc ++ (Py.str left ++ "," ++ Py.str right ++ nl))%string))
  end.

(** Lines 183-188. *)
Definition fir_config_string (dec : Z) (fir : list Z) (taps : nat) : Exc string :=
  let s0 := ""%string in
  let s1 := (s0 ++ ("RX 3 GAIN -6 DEC " ++ Py.str dec ++ nl))%string in
  let s2 := (s1 ++ ("TX 3 GAIN 0 INT " ++ Py.str dec ++ nl))%string in
  ebind (fir_config_loop fir 0 taps s2) (fun s3 =>
  ok (s3 ++ nl)%string).

(** Lines 193-195: the two rates of [tx_path_rates] and the largest tap
    count they support. *)
Definition token_value (readbuf : string) (i : nat) : Exc Z :=
  ebind (Py.index (Py.split " " readbuf) i) (fun tok =>
  ebind (Py.index (Py.split ":" tok) 1) (fun v =>
  Py.int v)).

Definition max_rate_of (readbuf : string) : Exc Z :=
  ebind (token_value readbuf 1) (fun dacrate =>
  ebind (token_value readbuf 5) (fun txrate =>
  ebind (Py.floordiv dacrate txrate) (fun q =>
  ok (q * 16)))).

Definition sample_rate_set (rate : Z) : M unit :=
  if rate <? 521000 then
    raise (ValueError "Error: Does not currently support sample rates below 521e3")
  else
    let p := filter_table rate in
    current_rate <- _get_iio_attr "voltage0" "sampling_frequency" false ;;
    fir_en <- _get_iio_attr "out" "voltage_filter_fir_en" false ;;
    when (negb (fir_en =? 0))
      (when (current_rate <=? 25000000 / 12)
         (_set_iio_attr "voltage0" "sampling_frequency" false (PyInt 3000000)) ;;
       _set_iio_attr "out" "voltage_filter_fir_en" false (PyInt 0)) ;;
    config <- lift (fir_config_string (dec p) (fir p) (taps p)) ;;
    _set_iio_dev_attr_str "filter_fir_config" config ;;
    if rate <=? 25000000 / 12 then
      readbuf <- _get_iio_dev_attr_str "tx_path_rates" ;;
      max_rate <- lift (max_rate_of readbuf) ;;
      when (max_rate <? Z.of_nat (taps p))
        (_set_iio_attr "voltage0" "sampling_frequency" false (PyInt 3000000)) ;;
      _set_iio_attr "out" "voltage_filter_fir_en" false (PyInt 1) ;;
      _set_iio_attr "voltage0" "sampling_frequency" false (PyInt rate)
    else
      _set_iio_attr "voltage0" "sampling_frequency" false (PyInt rate) ;;
      _set_iio_attr "out" "voltage_filter_fir_en" false (PyInt 1).

(** *** Construction (lines 222-249) *)

Definition set_uri (v : string) : M unit :=
  self <- get_self ;;
  put_self (mkObj (Some v) (_uri_auto self) (_ctx self) (_rxadc self)
                  (_rx_buffer_size self) (rx_data self) (tx_data self)).

Definition set_ctx (v : Z) : M unit :=
  self <- get_self ;;
  put_self (mkObj (uri self) (_uri_auto self) (Some v) (_rxadc self)
                  (_rx_buffer_size self) (rx_data self) (tx_data self)).

Definition set_rxadc (v : option Z) : M unit :=
  self <- get_self ;;
  put_self (mkObj (uri self) (_uri_auto self) (_ctx self) v
                  (_rx_buffer_size self) (rx_data self) (tx_data self)).

Definition set_rx_data (v : rxval) : M unit :=
  self <- get_self ;;
  put_self (mkObj (uri self) (_uri_auto self) (_ctx self) (_rxadc self)
                  (_rx_buffer_size self) (Some v) (tx_data self)).

Definition set_tx_data (v : list complex) : M unit :=
  self <- get_self ;;
  put_self (mkObj (uri self) (_uri_auto self) (_ctx self) (_rxadc self)
                  (_rx_buffer_size self) (rx_data self) (Some v)).

Definition is_some {A : Type} (o : option A) : bool :=
  match o with Some _ => true | None => false end.

Definition no_device : PyExc := Exception_ "No device found".

(** Lines 229-235, the body of the [try]. *)
Definition open_context (uri : string) : M unit :=
  if String.eqb uri "" then
    self <- get_self ;;
    when (negb (is_some (_ctx self)) && negb (String.eqb (_uri_auto self) ""))
      (h <- call (iio_Context (_uri_auto self)) ;; set_ctx h) ;;
    self <- get_self ;;
    when (negb (is_some (_ctx self))) (raise no_device)
  else
    h <- call (iio_Context uri) ;; set_ctx h.

Definition init (uri : string) : M unit :=
  self <- get_self ;;
  if is_some (_ctx self) then ret tt
  else
    set_uri uri ;;
    try_except (open_context uri) (fun _ => raise no_device) ;;
    self <- get_self ;;
    match _ctx self with
    | None => raise (AttributeError "'NoneType' object has no attribute 'find_device'")
    | Some ctx =>
        dev <- call (find_device ctx _rx_data_device_name) ;;
        set_rxadc dev ;;
        when (negb (is_some dev))
          (raise (Exception_ ("No device found with name " ++ _rx_data_device_name))) ;;
        _rx_init_channels ;;
        _tx_init_channels ;;
        rx_buffer_size_set 1024 ;;
        set_rx_data (RxList []) ;;
        set_tx_data []
    end.

(** *** Receiving (lines 255-274) *)

Definition get_rx_data : M rxval :=
  self <- get_self ;;
  match rx_data self with
  | Some v => ret v
  | None => raise (AttributeError "'ad936x' object has no attribute 'rx_data'")
  end.

(** [range(0, n, 2)]. *)
Definition range_by_2 (n : nat) : list nat :=
  map (fun k => (2 * k)%nat) (seq 0 (Nat.div2 (n + 1))).

(** [x + 1j * y] for two finite reals: the complex number with real part
    [x] and imaginary part [y]. *)
Definition add_1j_mul (x y : Q) : complex := mkComplex x y.

(** Line 268, the list comprehension over the indices [idx]. *)
Fixpoint comprehension (data : list Q) (idx : list nat) : Exc (list complex) :=
  match idx with
  | [] => ok []
  | i :: rest =>
      ebind (Py.index data i) (fun x =>
      ebind (Py.index data (i + 1)) (fun y =>
      ebind (comprehension data rest) (fun tl =>
      ok (add_1j_mul x y :: tl))))
  end.

(** [v == 2] for the values [self.rx_data] can hold: a list is never equal
    to an integer, a complex number is when it is [2 + 0j]. *)
Definition eq_2 (v : rxval) : bool :=
  match v with
  | RxList _ => false
  | RxItem c => Qeq_bool (re c) 2 && Qeq_bool (im c) 0
  end.

(** [len(b)] for a [bool]. *)
Definition len_bool (b : bool) : Exc nat :=
  throw (TypeError "object of type 'bool' has no len()").

(** [v[0]]. *)
Definition item_0 (v : rxval) : Exc rxval :=
  match v with
  | RxList l => ebind (Py.index l 0) (fun c => ok (RxItem c))
  | RxItem _ => throw (TypeError "'complex' object is not subscriptable")
  end.

Definition rx_only (get : bool) : M rxval :=
  if get then get_rx_data
  else
    data <- _rx_buffered_data ;;
    if negb (Nat.eqb (Nat.modulo (length data) 2) 0) then
      raise (Exception_ "Complex data must have an even number of component channels")
    else
      samples <- lift (comprehension data (range_by_2 (length data))) ;;
      set_rx_data (RxList samples) ;;
      v <- get_rx_data ;;
      n <- lift (len_bool (eq_2 v)) ;;
      when (negb (Nat.eqb n 0))
        (v <- get_rx_data ;;
         first <- lift (item_0 v) ;;
         set_rx_data first) ;;
      get_rx_data.

(** Lines 51-54: the getter of [rx_buffer_size]. *)
Definition rx_buffer_size : M Z :=
  self <- get_self ;;
  match _rx_buffer_size self with
  | Some v => ret v
  | None => raise (AttributeError "'ad936x' object has no attribute '_rx_buffer_size'")
  end.

(** Lines 251-253 and 276-278: the two methods whose body is [pass]. *)
Definition tx_only : M unit := ret tt.
Definition tx_rx_sync : M unit := ret tt.

End ad936x.

(** ** A bench device

    A device that keeps the attributes the class touches in a record and
    answers every call: the test double used to run the methods on concrete
    inputs. *)

Module Bench.

Record Device : Type := mkDevice {
  sampling_frequency : Z;
  voltage_filter_fir_en : Z;
  gain_mode : string;
  tx_path_rates : string;
  buffer : list Q
}.

Definition write (d : Device) (channel attr : string) (value : pyval) : Device :=
  match value with
  | PyInt z =>
      if String.eqb attr "sampling_frequency" then
        mkDevice z (voltage_filter_fir_en d) (gain_mode d) (tx_path_rates d) (buffer d)
      else if String.eqb attr "voltage_filter_fir_en" then
        mkDevice (sampling_frequency d) z (gain_mode d) (tx_path_rates d) (buffer d)
      else d
  | PyStr s =>
      if String.eqb attr "gain_control_mode" then
        mkDevice (sampling_frequency d) (voltage_filter_fir_en d) s (tx_path_rates d) (buffer d)
      else d
  | PyFloat _ => d
  end.

Definition handle (d : Device) (c : Call) : Exc (Resp c) * Device :=
  match c as c0 return Exc (Resp c0) * Device with
  | iio_Context _ => (inl 1, d)
  | find_device _ _ => (inl (Some 2), d)
  | rx_init_channels => (inl tt, d)
  | tx_init_channels => (inl tt, d)
  | rx_buffered_data => (inl (buffer d), d)
  | get_iio_attr _ attr _ =>
      (inl (if String.eqb attr "sampling_frequency" then sampling_frequency d
            else if String.eqb attr "voltage_filter_fir_en" then voltage_filter_fir_en d
            else 0), d)
  | get_iio_attr_str _ _ _ => (inl (gain_mode d), d)
  | set_iio_attr ch attr _ v => (inl tt, write d ch attr v)
  | set_iio_attr_int ch attr _ v => (inl tt, write d ch attr v)
  | set_iio_attr_float ch attr _ v => (inl tt, write d ch attr v)
  | get_iio_dev_attr_str _ => (inl (tx_path_rates d), d)
  | set_iio_dev_attr_str _ _ => (inl tt, d)
  end.

(** The rates an AD9361 reports at 30.72 MS/s. *)
Definition rates_30720000 : string :=
  "BBPLL:983040000 DAC:122880000 T2:122880000 T1:61440000 TF:30720000 TXSAMP:30720000".

Definition idle : Device := mkDevice 30720000 0 "slow_attack" rates_30720000 [].

(** An object before [__init__] has run. *)
Definition fresh : Obj := mkObj None "" None None None None None.

(** A device whose filter is enabled at a committed rate of 1 MS/s. *)
Definition filtering : Device :=
  mkDevice 1000000 1 "manual" rates_30720000 [].

(** A device whose DAC runs at seven times the TX rate. *)
Definition ratio_7 : Device :=
  mkDevice 30720000 0 "slow_attack"
    "BBPLL:56000000 DAC:7000000 T2:7000000 T1:7000000 TF:1000000 TXSAMP:1000000" [].

(** A device whose DAC rate is 112.5 times the TX rate, the ratio for
    which [(dacRate / txRate) * 16] is 1800 over the rationals. *)
Definition ratio_112_5 : Device :=
  mkDevice 30720000 0 "slow_attack"
    "BBPLL:1800 DAC:225 T2:225 T1:225 TF:2 TXSAMP:2" [].

Definition odd_buffer : Device :=
  mkDevice 30720000 0 "slow_attack" rates_30720000 [1#1; 2#1; 3#1].

Definition even_buffer : Device :=
  mkDevice 30720000 0 "slow_attack" rates_30720000 [1#1; 2#1; 3#1; 4#1].

(** A device in trouble: no context at the address [ip:down], no RX data
    device on any context, and a filter payload that is refused. *)
Definition faulty (d : Device) (c : Call) : Exc (Resp c) * Device :=
  match c as c0 return Exc (Resp c0) * Device with
  | iio_Context uri =>
      if String.eqb uri "ip:down"
      then (inr (TransportError "connection refused"), d)
      else (inl 1, d)
  | find_device _ _ => (inl None, d)
  | set_iio_dev_attr_str _ _ => (inr (TransportError "write refused"), d)
  | c0 => handle d c0
  end.

(** A device whose filter is enabled at a committed rate of 30.72 MS/s. *)
Definition filtering_wide : Device :=
  mkDevice 30720000 1 "manual" rates_30720000 [].

(** A device whose [tx_path_rates] stops after the DAC rate, and one whose
    TX rate is zero. *)
Definition short_rates : Device :=
  mkDevice 30720000 0 "slow_attack" "BBPLL:983040000 DAC:122880000" [].

Definition zero_tx : string :=
  "BBPLL:983040000 DAC:122880000 T2:122880000 T1:61440000 TF:30720000 TXSAMP:0".


End Bench.

(** ** Vocabulary of the statements *)

Abbreviation read_rate := (get_iio_attr "voltage0" "sampling_frequency" false).
Abbreviation read_fir_en := (get_iio_attr "out" "voltage_filter_fir_en" false).
Abbreviation write_rate z := (set_iio_attr "voltage0" "sampling_frequency" false (PyInt z)).
Abbreviation write_fir_en z := (set_iio_attr "out" "voltage_filter_fir_en" false (PyInt z)).
Abbreviation write_fir_config s := (set_iio_dev_attr_str "filter_fir_config" s).
Abbreviation read_tx_path_rates := (get_iio_dev_attr_str "tx_path_rates").
Abbreviation read_gain_mode := (get_iio_attr_str "voltage0" "gain_control_mode" false).

(** The rate from which the setter refuses to go lower, and the boundary
    [25000000 / 12] between the narrowband and the wideband sequence, the
    latter read over the rationals. *)
Definition rate_floor : Z := 521000.
Definition narrowband (r : Z) : Prop := 12 * r <= 25000000.
Definition bootstrap_rate : Z := 3000000.

(** The four brackets of the table, in the order of the specification. *)
Definition in_bracket (k : nat) (r : Z) : Prop :=
  match k with
  | 0%nat => r <= 20000000
  | 1%nat => 20000000 < r <= 40000000
  | 2%nat => 40000000 < r <= 53333333
  | 3%nat => 53333333 < r
  | _ => False
  end.

Definition bracket_profile (k : nat) : Z * nat :=
  match k with
  | 0%nat => (4, 128%nat)
  | 1%nat => (2, 128%nat)
  | 2%nat => (2, 96%nat)
  | _ => (2, 64%nat)
  end.

(** Lines of text, each closed by a newline. *)
Fixpoint unlines (ls : list string) : string :=
  match ls with
  | [] => EmptyString
  | l :: rest => (l ++ ad936x.nl ++ unlines rest)%string
  end.

Definition coefficient_line (c : Z) : string :=
  (Py.str c ++ "," ++ Py.str c)%string.

(** The text of the specification's filter payload: two headers, one line
    per coefficient, one blank line. *)
Definition payload (p : FilterProfile) : string :=
  unlines (("RX 3 GAIN -6 DEC " ++ Py.str (dec p))%string
           :: ("TX 3 GAIN 0 INT " ++ Py.str (dec p))%string
           :: map coefficient_line (fir p) ++ [EmptyString]).

(** No call of the trace was answered by an exception. *)
Fixpoint answered (t : list Event) : bool :=
  match t with
  | [] => true
  | Ev _ (A_raise _) :: _ => false
  | Ev _ _ :: rest => answered rest
  end.

(** Consecutive elements taken two by two. *)
Fixpoint pairs (raw : list Q) : list complex :=
  match raw with
  | x :: y :: rest => mkComplex x y :: pairs rest
  | _ => []
  end.

Definition store_rx_data (self : Obj) (v : rxval) : Obj :=
  mkObj (uri self) (_uri_auto self) (_ctx self) (_rxadc self)
        (_rx_buffer_size self) (Some v) (tx_data self).

(** The ratio of the specification's [(dacRate / txRate) * 16], taken over
    the rationals, equals [v]. *)
Definition exact_ratio_times_16 (dacrate txrate v : Z) : Prop :=
  txrate <> 0 /\ dacrate * 16 = v * txrate.

(** What an answered run issues between the two reads and the filter
    payload (lines 177-180). *)
Definition disable_events (cur en : Z) : list Event :=
  if negb (en =? 0) then
    (if cur <=? 25000000 / 12 then [Ev (write_rate bootstrap_rate) A_done] else [])
    ++ [Ev (write_fir_en 0) A_done]
  else [].

(** What an answered run issues after the filter payload (lines 191-202),
    [readbuf] being the text read from [tx_path_rates]. *)
Definition commit_events (rate : Z) (readbuf : string) : list Event :=
  if rate <=? 25000000 / 12 then
    Ev read_tx_path_rates (A_str readbuf)
    :: match ad936x.max_rate_of readbuf with
       | inl max_rate =>
           (if max_rate <? Z.of_nat (taps (filter_table rate))
            then [Ev (write_rate bootstrap_rate) A_done] else [])
           ++ [Ev (write_fir_en 1) A_done; Ev (write_rate rate) A_done]
       | inr _ => []
       end
  else [Ev (write_rate rate) A_done; Ev (write_fir_en 1) A_done].

Definition commit_outcome (rate : Z) (readbuf : string) : Outcome unit :=
  if rate <=? 25000000 / 12 then
    match ad936x.max_rate_of readbuf with
    | inl _ => Returned tt
    | inr e => Raised e
    end
  else Returned tt.

Arguments narrowband : simpl never.
Arguments disable_events : simpl never.
Arguments commit_events : simpl never.
Arguments commit_outcome : simpl never.

(** Case analysis on the next answer of the device [h], and on the next
    test of the method. *)
Ltac answer_call h :=
  match goal with
  | |- context [h ?s ?c] =>
      let x := fresh "x" in
      let e := fresh "e" in
      let s' := fresh "s" in
      destruct (h s c) as [[x|e] s']; cbn
  end.

Ltac branch :=
  match goal with
  | |- context [negb (?a =? 0)] => destruct (a =? 0) eqn:?; cbn
  | |- context [?a <=? ?b] => destruct (a <=? b) eqn:?; cbn
  | |- context [?a <? ?b] => destruct (a <? b) eqn:?; cbn
  | |- context [lift (ad936x.max_rate_of ?b)] =>
      destruct (ad936x.max_rate_of b) as [?|?] eqn:?; cbn
  end.

(** Rewriting with the tests already decided. *)
Ltac decided :=
  repeat match goal with
         | H : ?b = _ |- context [?b] => rewrite H
         | |- context [@Returned unit ?u] => is_var u; destruct u
         end.

(** Where in a concrete trace an event sits. *)
Ltac locate i H :=
  repeat (destruct i as [|i];
          [cbn in H; try discriminate | cbn in H; try discriminate]).

(** A method that is one call [c] to the device and nothing else: the
    trace, the outcome and the device are those of the call, and [self] is
    untouched. *)
Definition single_call {S : Type} (handle : S -> forall c : Call, Exc (Resp c) * S)
    (m : M unit) (c : Call) (self : Obj) (s : S) : Prop :=
  let r := exec handle m self s in
  trace_of r = [Ev c (answer_of c (fst (handle s c)))]
  /\ self_of r = self
  /\ device_of r = snd (handle s c)
  /\ outcome_of r = match fst (handle s c) with
                    | inl _ => Returned tt
                    | inr e => Raised e
                    end.

(** A method that is a single call. *)
Ltac one_call h :=
  unfold single_call, exec, trace_of, self_of, outcome_of, device_of; cbn;
  match goal with
  | |- context [h ?s0 ?c] => destruct (h s0 c) as [[[]|?] ?]
  end;
  repeat apply conj; reflexivity.

(** The calls the [sample_rate] setter can issue for a requested rate. *)
Definition setter_calls (rate : Z) : list Call :=
  [read_rate; read_fir_en; write_rate bootstrap_rate; write_fir_en 0;
   write_fir_config (payload (filter_table rate)); read_tx_path_rates;
   write_fir_en 1; write_rate rate].

(** The address [__init__] opens: the argument, or [_uri_auto] when the
    argument is empty. *)
Definition chosen_uri (uri : string) (self : Obj) : string :=
  if String.eqb uri "" then _uri_auto self else uri.

Definition store_uri (self : Obj) (v : string) : Obj :=
  mkObj (Some v) (_uri_auto self) (_ctx self) (_rxadc self)
        (_rx_buffer_size self) (rx_data self) (tx_data self).

(** Membership in a concrete list of events or calls, one position at a
    time. *)
Ltac among H :=
  cbn [In] in H;
  repeat match type of H with
         | _ \/ _ => destruct H as [H|H]
         end;
  try discriminate H; try contradiction.







Arguments filter_table : simpl never.
Arguments ad936x.fir_config_string : simpl never.
Arguments ad936x.max_rate_of : simpl never.
Arguments payload : simpl never.

(** * Properties *)

(** ** Strings *)

Lemma append_nil_r (s : string) : (s ++ "")%string = s.
Proof. induction s as [|c s IH]; simpl; [reflexivity | now rewrite IH]. Qed.

Lemma append_assoc (a b c : string) : ((a ++ b) ++ c)%string = (a ++ (b ++ c))%string.
Proof. induction a as [|x a IH]; simpl; [reflexivity | now rewrite IH]. Qed.

Lemma unlines_app (xs ys : list string) :
  unlines (xs ++ ys) = (unlines xs ++ unlines ys)%string.
Proof.
  induction xs as [|x xs IH]; simpl; [reflexivity|].
  now rewrite IH, !append_assoc.
Qed.

(** ** The filter table *)

Lemma filter_table_cases (r : Z) :
  (r <= 20000000 /\ filter_table r = mkProfile 4 fir_128_dec4 128) \/
  (20000000 < r <= 40000000 /\ filter_table r = mkProfile 2 fir_128_dec2 128) \/
  (40000000 < r <= 53333333 /\ filter_table r = mkProfile 2 fir_96_dec2 96) \/
  (53333333 < r /\ filter_table r = mkProfile 2 fir_64_dec2 64).
Proof.
  unfold filter_table.
  destruct (Z.leb_spec r 20000000); [left; split; [lia | reflexivity]|].
  destruct (Z.leb_spec r 40000000); [right; left; split; [lia | reflexivity]|].
  destruct (Z.leb_spec r 53333333); [right; right; left; split; [lia | reflexivity]|].
  right; right; right; split; [lia | reflexivity].
Qed.

Lemma filter_table_length (r : Z) :
  length (fir (filter_table r)) = taps (filter_table r).
Proof.
  destruct (filter_table_cases r) as [[_ ->]|[[_ ->]|[[_ ->]|[_ ->]]]]; reflexivity.
Qed.

(** C2: from the floor upwards, the requested rate lies in exactly one of
    the four brackets, and the table answers with that bracket's decimation
    and tap count: 4 and 128 up to 20 MS/s, 2 and 128 up to 40 MS/s, 2 and 96
    up to 53,333,333, 2 and 64 above. *)
Theorem filter_table_brackets (r : Z) :
  rate_floor <= r ->
  exists k : nat,
    in_bracket k r /\
    (dec (filter_table r), taps (filter_table r)) = bracket_profile k /\
    (forall k' : nat, in_bracket k' r -> k' = k).
Proof.
  intros _.
  destruct (filter_table_cases r) as [[H ->]|[[H ->]|[[H ->]|[H ->]]]];
    [exists 0%nat | exists 1%nat | exists 2%nat | exists 3%nat];
    (split; [exact H | split; [reflexivity|]]);
    intros [|[|[|[|k']]]]; simpl; intros; solve [reflexivity | lia | contradiction].
Qed.

Lemma filter_table_brackets_witness :
  rate_floor <= 30000000 /\
  exists k : nat,
    in_bracket k 30000000 /\
    (dec (filter_table 30000000), taps (filter_table 30000000)) = bracket_profile k /\
    (forall k' : nat, in_bracket k' 30000000 -> k' = k).
Proof.
  split; [unfold rate_floor; lia | apply (filter_table_brackets 30000000); unfold rate_floor; lia].
Defined.

(** ** The filter payload *)

Lemma index_nth_error {A : Type} (xs : list A) (i : nat) (x : A) :
  nth_error xs i = Some x -> Py.index xs i = ok x.
Proof. unfold Py.index; now intros ->. Qed.

Lemma skipn_nth_error {A : Type} (xs : list A) (i : nat) (x : A) :
  nth_error xs i = Some x -> skipn i xs = x :: skipn (Datatypes.S i) xs.
Proof.
  revert i; induction xs as [|a xs IH]; intros [|i] Hx; simpl in *;
    try discriminate; [now inversion Hx | now apply IH].
Qed.

Lemma fir_config_loop_lines (fir : list Z) (n i : nat) (acc : string) :
  (i + n <= length fir)%nat ->
  ad936x.fir_config_loop fir i n acc
  = ok (acc ++ unlines (map coefficient_line (firstn n (skipn i fir))))%string.
Proof.
  revert i acc; induction n as [|n IH]; intros i acc Hlen;
    cbn [ad936x.fir_config_loop].
  - cbn [firstn map unlines]. now rewrite append_nil_r.
  - destruct (nth_error fir i) as [x|] eqn:Hx;
      [|apply nth_error_None in Hx; lia].
    rewrite (index_nth_error _ _ _ Hx). unfold ok at 1 2. cbn [ebind].
    rewrite IH by lia.
    rewrite (skipn_nth_error _ _ _ Hx), firstn_cons.
    cbn [map unlines]. unfold coefficient_line.
    now rewrite !append_assoc.
Qed.

Lemma fir_config_string_payload (p : FilterProfile) :
  length (fir p) = taps p ->
  ad936x.fir_config_string (dec p) (fir p) (taps p) = ok (payload p).
Proof.
  intros Hlen. unfold ad936x.fir_config_string. cbv zeta.
  rewrite fir_config_loop_lines by (rewrite Hlen; apply Nat.le_refl).
  unfold ok at 1. cbn [ebind skipn].
  rewrite <- Hlen, firstn_all. unfold payload.
  cbn [unlines]. rewrite unlines_app. cbn [unlines String.append].
  repeat (progress (rewrite ?append_assoc, ?append_nil_r; cbn [String.append])).
  reflexivity.
Qed.

Lemma fir_config_string_table (r : Z) :
  ad936x.fir_config_string (dec (filter_table r)) (fir (filter_table r))
                           (taps (filter_table r))
  = ok (payload (filter_table r)).
Proof. apply fir_config_string_payload, filter_table_length. Qed.

(** ** The rates read from [tx_path_rates] *)

Lemma max_rate_of_tokens (readbuf : string) (dacrate txrate : Z) :
  ad936x.token_value readbuf 1 = ok dacrate ->
  ad936x.token_value readbuf 5 = ok txrate ->
  txrate <> 0 ->
  ad936x.max_rate_of readbuf = ok (dacrate / txrate * 16).
Proof.
  intros Hd Ht Hz. unfold ad936x.max_rate_of. rewrite Hd, Ht.
  unfold ok at 1 2. cbn [ebind]. unfold Py.floordiv.
  destruct (Z.eqb_spec txrate 0); [contradiction | reflexivity].
Qed.

(** The setter can only compute a multiple of sixteen. *)
Lemma max_rate_of_multiple (readbuf : string) (v : Z) :
  ad936x.max_rate_of readbuf = ok v -> exists q : Z, v = q * 16.
Proof.
  unfold ad936x.max_rate_of, ebind, ok.
  destruct (ad936x.token_value readbuf 1) as [d|]; [|discriminate].
  destruct (ad936x.token_value readbuf 5) as [t|]; [|discriminate].
  destruct (Py.floordiv d t) as [q|]; [|discriminate].
  intros [= <-]. now exists q.
Qed.

(** With 128 taps and a positive TX rate, the test of line 196 on the floor
    quotient decides as the same test on the exact ratio would. *)
Lemma bootstrap_test_exact (dacrate txrate : Z) :
  0 < txrate ->
  dacrate / txrate * 16 < 128 <-> dacrate * 16 < 128 * txrate.
Proof.
  intros Ht. split; intros H.
  - destruct (Z.lt_ge_cases dacrate (8 * txrate)) as [Hlt|Hge]; [lia|].
    assert (8 <= dacrate / txrate) by (apply Z.div_le_lower_bound; lia). lia.
  - assert (dacrate / txrate < 8) by (apply Z.div_lt_upper_bound; lia). lia.
Qed.

Lemma narrowband_leb (r : Z) : narrowband r <-> (r <=? 2083333) = true.
Proof. unfold narrowband; rewrite Z.leb_le; lia. Qed.

(** ** Executions of the [sample_rate] setter on an arbitrary device *)

Section Executions.

Variable S : Type.
Variable handle : S -> forall c : Call, Exc (Resp c) * S.

Import ad936x.

(** An execution in which the device answers every call is fixed by three
    answers: the rate and the filter flag read first, and the text of
    [tx_path_rates]. *)
Lemma answered_run (self : Obj) (s : S) (rate : Z) :
  rate_floor <= rate ->
  let r := exec handle (sample_rate_set rate) self s in
  answered (trace_of r) = true ->
  exists cur en readbuf,
    trace_of r
    = ([Ev read_rate (A_int cur); Ev read_fir_en (A_int en)]
       ++ disable_events cur en
       ++ [Ev (write_fir_config (payload (filter_table rate))) A_done]
       ++ commit_events rate readbuf)%list
    /\ outcome_of r = commit_outcome rate readbuf.
Proof.
  unfold rate_floor; intros Hr. cbv zeta.
  unfold exec, sample_rate_set, trace_of, outcome_of.
  rewrite fir_config_string_table.
  destruct (Z.ltb_spec rate 521000); [lia|]. cbn.
  answer_call handle; [|discriminate].
  answer_call handle; [|discriminate].
  unfold disable_events, commit_events, commit_outcome.
  change (25000000 / 12) with 2083333.
  repeat (first [answer_call handle | branch]); try discriminate.
  all: intros _.
  all: match goal with
       | |- exists cur en readbuf, Ev _ (A_int ?c) :: Ev _ (A_int ?e) :: _ = _ /\ _ =>
           exists c, e
       end.
  all: match goal with
       | |- context [Ev read_tx_path_rates (A_str ?b)] => exists b
       | |- _ => exists EmptyString
       end.
  all: decided; cbn; decided; split; reflexivity.
Qed.

Lemma disable_events_no_config (cur en : Z) (attr v : string) (a : Answer) :
  ~ In (Ev (set_iio_dev_attr_str attr v) a)
       ([Ev read_rate (A_int cur); Ev read_fir_en (A_int en)] ++ disable_events cur en).
Proof.
  unfold disable_events.
  destruct (negb (en =? 0)); [destruct (cur <=? 25000000 / 12)|];
    cbn; intuition discriminate.
Qed.

Lemma disable_events_no_read (cur en : Z) (attr v : string) (a : Answer) :
  ~ In (Ev (get_iio_dev_attr_str attr) a)
       ([Ev read_rate (A_int cur); Ev read_fir_en (A_int en)] ++ disable_events cur en).
Proof.
  unfold disable_events.
  destruct (negb (en =? 0)); [destruct (cur <=? 25000000 / 12)|];
    cbn; intuition discriminate.
Qed.

(** C3: a requested rate below 521,000 raises [ValueError] before the
    device is touched: the trace is empty, and neither the object nor the
    device has changed. *)
Theorem sample_rate_below_floor (self : Obj) (s : S) (rate : Z) :
  0 < rate < rate_floor ->
  exec handle (sample_rate_set rate) self s
  = ([],
     (Raised (ValueError "Error: Does not currently support sample rates below 521e3"),
      self),
     s).
Proof.
  unfold rate_floor; intros Hr. unfold exec, sample_rate_set.
  destruct (Z.ltb_spec rate 521000); [reflexivity | lia].
Qed.

(** C4: in an execution where the device answers every call, the filter
    payload is written once, and what follows it depends on the requested
    rate only through the boundary [25000000 / 12].  At or below it, the
    setter reads [tx_path_rates]; when the DAC and TX tokens parse to
    [dacrate] and [txrate], it writes the bootstrap rate exactly when
    [(dacrate // txrate) * 16] is less than the tap count, then enables
    the filter, then commits the rate.  Above it, the setter commits the
    rate and then enables the filter. *)
Theorem commit_sequence (self : Obj) (s : S) (rate : Z) :
  rate_floor <= rate ->
  let r := exec handle (sample_rate_set rate) self s in
  answered (trace_of r) = true ->
  exists pre tail,
    trace_of r
    = (pre ++ Ev (write_fir_config (payload (filter_table rate))) A_done :: tail)%list
    /\ (forall attr v a, ~ In (Ev (set_iio_dev_attr_str attr v) a) pre)
    /\ (narrowband rate ->
        exists readbuf rest,
          tail = Ev read_tx_path_rates (A_str readbuf) :: rest
          /\ forall dacrate txrate,
              token_value readbuf 1 = ok dacrate ->
              token_value readbuf 5 = ok txrate ->
              txrate <> 0 ->
              rest
              = ((if dacrate / txrate * 16 <? Z.of_nat (taps (filter_table rate))
                  then [Ev (write_rate bootstrap_rate) A_done] else [])
                 ++ [Ev (write_fir_en 1) A_done; Ev (write_rate rate) A_done])%list
              /\ outcome_of r = Returned tt)
    /\ (~ narrowband rate ->
        tail = [Ev (write_rate rate) A_done; Ev (write_fir_en 1) A_done]
        /\ outcome_of r = Returned tt).
Proof.
  intros Hr r Hans.
  destruct (answered_run self s rate Hr Hans) as (cur & en & readbuf & Ht & Ho).
  fold r in Ht, Ho.
  exists ([Ev read_rate (A_int cur); Ev read_fir_en (A_int en)] ++ disable_events cur en)%list,
         (commit_events rate readbuf).
  split; [|split; [|split]].
  - rewrite Ht, <- !app_assoc. reflexivity.
  - intros attr v a. apply disable_events_no_config.
  - intros Hn. apply narrowband_leb in Hn.
    unfold commit_events, commit_outcome in *.
    change (25000000 / 12) with 2083333 in *. rewrite Hn in *.
    eexists readbuf, _. split; [reflexivity|].
    intros dacrate txrate Hd Htx Hz.
    rewrite (max_rate_of_tokens _ _ _ Hd Htx Hz) in *.
    split; [reflexivity | exact Ho].
  - intros Hn. rewrite narrowband_leb in Hn.
    unfold commit_events, commit_outcome in *.
    change (25000000 / 12) with 2083333 in *.
    destruct (rate <=? 2083333); [now elim Hn|].
    split; [reflexivity | exact Ho].
Qed.

(** C5: in an execution that read a committed rate [cur] at or below
    [25000000 / 12] and a filter flag that is set, the third call writes
    the bootstrap rate 3,000,000; once that write is answered, the fourth
    call disables the filter; and the filter is disabled nowhere else, so
    that every disabling write comes right after an answered bootstrap
    write. *)
Theorem bootstrap_before_disable (self : Obj) (s : S) (rate cur en : Z) :
  let t := trace_of (exec handle (sample_rate_set rate) self s) in
  nth_error t 0 = Some (Ev read_rate (A_int cur)) ->
  nth_error t 1 = Some (Ev read_fir_en (A_int en)) ->
  en <> 0 ->
  narrowband cur ->
  (exists a, nth_error t 2 = Some (Ev (write_rate bootstrap_rate) a))
  /\ (nth_error t 2 = Some (Ev (write_rate bootstrap_rate) A_done) ->
      exists a, nth_error t 3 = Some (Ev (write_fir_en 0) a))
  /\ (forall i a,
        nth_error t i = Some (Ev (write_fir_en 0) a) ->
        i = 3%nat
        /\ nth_error t 2 = Some (Ev (write_rate bootstrap_rate) A_done)).
Proof.
  cbv zeta. unfold exec, sample_rate_set, trace_of.
  intros H0 H1 Hen Hcur; revert H0 H1.
  apply narrowband_leb in Hcur.
  rewrite fir_config_string_table.
  destruct (rate <? 521000); cbn; [discriminate|].
  answer_call handle; [|discriminate]. intros [= ->].
  answer_call handle; [|discriminate]. intros [= ->].
  rewrite Hcur. destruct (Z.eqb_spec en 0) as [|_]; [contradiction|]. cbn.
  repeat (first [answer_call handle | branch]).
  all: split; [eexists; reflexivity|].
  all: split; [first [discriminate | intros _; eexists; reflexivity]|].
  all: intros i a Hi; locate i Hi.
  all: try (destruct i; discriminate).
  all: split; reflexivity.
Qed.

(** C6: the only device-level string the setter writes goes to
    [filter_fir_config], and it is the text made of the line
    [RX 3 GAIN -6 DEC d], the line [TX 3 GAIN 0 INT d], one line [c,c] per
    coefficient [c] of the selected profile in table order, as many as the
    profile has taps, and one empty line; an execution in which the device
    answers every call does write it. *)
Theorem fir_config_written (self : Obj) (s : S) (rate : Z) :
  rate_floor <= rate ->
  let r := exec handle (sample_rate_set rate) self s in
  let p := filter_table rate in
  let text :=
    unlines (("RX 3 GAIN -6 DEC " ++ Py.str (dec p))%string
             :: ("TX 3 GAIN 0 INT " ++ Py.str (dec p))%string
             :: map coefficient_line (fir p) ++ [EmptyString]) in
  length (map coefficient_line (fir p)) = taps p
  /\ (forall i attr value a,
        nth_error (trace_of r) i = Some (Ev (set_iio_dev_attr_str attr value) a) ->
        attr = "filter_fir_config" /\ value = text)
  /\ (answered (trace_of r) = true ->
      In (Ev (write_fir_config text) A_done) (trace_of r)).
Proof.
  intros Hr r p text.
  change text with (payload p). subst p.
  split; [|split].
  - rewrite length_map. apply filter_table_length.
  - clear text. subst r. unfold rate_floor in Hr.
    unfold exec, sample_rate_set, trace_of.
    rewrite fir_config_string_table.
    destruct (Z.ltb_spec rate 521000); [lia|]. cbn.
    repeat (first [answer_call handle | branch]).
    all: intros i attr value a Hi; locate i Hi.
    all: try (destruct i; discriminate).
    all: injection Hi as <- <- _; split; reflexivity.
  - intros Hans.
    destruct (answered_run self s rate Hr Hans) as (cur & en & readbuf & Ht & _).
    fold r in Ht. rewrite Ht.
    apply in_or_app; right. apply in_or_app; right. now left.
Qed.

End Executions.

(** ** The bootstrap scenario, the property setters, receiving *)

Section Methods.

Variable S : Type.
Variable handle : S -> forall c : Call, Exc (Resp c) * S.

Import ad936x.

(** C7, amended: with a requested rate of 1,000,000, which is in the
    narrowband range and selects 128 taps, an execution in which the
    device answers every call and in which the value computed from
    [tx_path_rates] is less than the tap count ends with the bootstrap
    write of 3,000,000, the write enabling the filter, and the commit of
    1,000,000, in that order. *)
Theorem bootstrap_before_enable (self : Obj) (s : S) (readbuf : string) (max_rate : Z) :
  let r := exec handle (sample_rate_set 1000000) self s in
  answered (trace_of r) = true ->
  In (Ev read_tx_path_rates (A_str readbuf)) (trace_of r) ->
  max_rate_of readbuf = ok max_rate ->
  max_rate < Z.of_nat (taps (filter_table 1000000)) ->
  narrowband 1000000
  /\ taps (filter_table 1000000) = 128%nat
  /\ exists pre,
       trace_of r
       = (pre ++ [Ev (write_rate bootstrap_rate) A_done;
                  Ev (write_fir_en 1) A_done;
                  Ev (write_rate 1000000) A_done])%list
       /\ outcome_of r = Returned tt.
Proof.
  cbv zeta. intros Hans Hin Hmax Hlt.
  assert (Hfloor : rate_floor <= 1000000) by (unfold rate_floor; lia).
  destruct (answered_run S handle self s 1000000 Hfloor Hans)
    as (cur & en & readbuf' & Ht & Ho).
  split; [unfold narrowband; lia | split; [reflexivity|]].
  rewrite Ho, Ht. rewrite Ht in Hin. clear Ht Ho Hans.
  assert (Hbuf : readbuf' = readbuf).
  { rewrite app_assoc in Hin.
    apply in_app_or in Hin as [Hin|Hin];
      [now apply disable_events_no_read in Hin|].
    destruct Hin as [Hin|Hin]; [discriminate|].
    unfold commit_events in Hin.
    change (1000000 <=? 25000000 / 12) with true in Hin. cbv iota in Hin.
    destruct Hin as [[= ->]|Hin]; [reflexivity|].
    exfalso. destruct (max_rate_of readbuf') as [m|]; [|exact Hin].
    destruct (m <? Z.of_nat (taps (filter_table 1000000)));
      cbn in Hin; intuition discriminate. }
  subst readbuf'. clear Hin.
  unfold commit_events, commit_outcome.
  change (1000000 <=? 25000000 / 12) with true. cbv iota.
  rewrite Hmax. unfold ok.
  apply Z.ltb_lt in Hlt. rewrite Hlt.
  exists ([Ev read_rate (A_int cur); Ev read_fir_en (A_int en)]
          ++ disable_events cur en
          ++ [Ev (write_fir_config (payload (filter_table 1000000))) A_done;
              Ev read_tx_path_rates (A_str readbuf)])%list.
  split; [|reflexivity].
  rewrite <- !app_assoc. reflexivity.
Qed.

(** C9, amended: the setters of [gain_control_mode], [tx_hardwaregain],
    both bandwidths and both local oscillators are one write of the value
    to their attribute.  The setter of [rx_hardwaregain] first reads the
    gain-control mode; it writes the value to the RX [hardwaregain]
    attribute when the mode is [manual], and writes nothing otherwise. *)
Theorem setters_pass_through (self : Obj) (s : S) (value : pyval) :
  single_call handle (gain_control_mode_set value)
              (set_iio_attr "voltage0" "gain_control_mode" false value) self s
  /\ single_call handle (tx_hardwaregain_set value)
                 (set_iio_attr_float "voltage0" "hardwaregain" true value) self s
  /\ single_call handle (rx_rf_bandwidth_set value)
                 (set_iio_attr_int "voltage0" "rf_bandwidth" false value) self s
  /\ single_call handle (tx_rf_bandwidth_set value)
                 (set_iio_attr_int "voltage0" "rf_bandwidth" true value) self s
  /\ single_call handle (rx_lo_set value)
                 (set_iio_attr_int "altvoltage0" "frequency" true value) self s
  /\ single_call handle (tx_lo_set value)
                 (set_iio_attr_int "altvoltage1" "frequency" true value) self s
  /\ (forall mode s1,
        handle s read_gain_mode = (inl mode, s1) ->
        let r := exec handle (rx_hardwaregain_set value) self s in
        let w := set_iio_attr_float "voltage0" "hardwaregain" false value in
        (mode = "manual"%string ->
         trace_of r = [Ev read_gain_mode (A_str mode);
                       Ev w (answer_of w (fst (handle s1 w)))])
        /\ (mode <> "manual"%string ->
            r = ([Ev read_gain_mode (A_str mode)], (Returned tt, self), s1))).
Proof.
  do 6 (split; [one_call handle|]).
  intros mode s1 Hmode. cbv zeta. split.
  - intros ->. unfold exec, trace_of, rx_hardwaregain_set. cbn.
    rewrite Hmode. cbn.
    match goal with
    | |- context [handle ?s0 ?c] => destruct (handle s0 c) as [[[]|?] ?]
    end; reflexivity.
  - intros Hm. apply String.eqb_neq in Hm.
    unfold exec, rx_hardwaregain_set. cbn.
    rewrite Hmode. cbn. rewrite Hm. reflexivity.
Qed.

(** *** Receiving *)

Lemma odd_length_test (n : nat) :
  negb (Nat.eqb (Nat.modulo n 2) 0) = Nat.odd n.
Proof.
  rewrite <- Nat.negb_even. f_equal.
  destruct (Nat.even n) eqn:He.
  - apply Nat.even_spec in He as [k ->].
    rewrite Nat.mul_comm, Nat.Div0.mod_mul. reflexivity.
  - assert (Ho : Nat.odd n = true) by (rewrite <- Nat.negb_even, He; reflexivity).
    apply Nat.odd_spec in Ho as [k ->].
    rewrite Nat.add_comm, Nat.mul_comm, Nat.Div0.mod_add. reflexivity.
Qed.

(** The comprehension of line 268 over a buffer of even length pairs the
    elements two by two. *)
Lemma comprehension_pairs (data : list Q) (n a : nat) :
  (2 * a + 2 * n = length data)%nat ->
  comprehension data (map (fun k => (2 * k)%nat) (seq a n))
  = ok (pairs (skipn (2 * a) data)).
Proof.
  revert a; induction n as [|n IH]; intros a Hlen.
  - cbn [seq map comprehension].
    rewrite skipn_all2 by lia. reflexivity.
  - cbn [seq map comprehension].
    destruct (nth_error data (2 * a)) as [x|] eqn:Hx;
      [|apply nth_error_None in Hx; lia].
    destruct (nth_error data (2 * a + 1)) as [y|] eqn:Hy;
      [|apply nth_error_None in Hy; lia].
    rewrite (index_nth_error _ _ _ Hx), (index_nth_error _ _ _ Hy).
    unfold ok at 1 2. cbn [ebind].
    rewrite IH by lia. unfold ok at 1. cbn [ebind].
    rewrite (skipn_nth_error _ _ _ Hx).
    replace (Datatypes.S (2 * a)) with (2 * a + 1)%nat by lia.
    rewrite (skipn_nth_error _ _ _ Hy).
    replace (Datatypes.S (2 * a + 1)) with (2 * Datatypes.S a)%nat by lia.
    reflexivity.
Qed.

Lemma comprehension_even (data : list Q) :
  Nat.even (length data) = true ->
  comprehension data (range_by_2 (length data)) = ok (pairs data).
Proof.
  intros He. apply Nat.even_spec in He as [k Hk].
  unfold range_by_2. rewrite Hk.
  replace (2 * k + 1)%nat with (Datatypes.S (2 * k)) by lia.
  rewrite Nat.div2_succ_double.
  apply (comprehension_pairs data k 0). lia.
Qed.

(** Sample [i] of the pairing has real part [raw[2i]] and imaginary part
    [raw[2i+1]], and a buffer of length [2n] gives [n] samples. *)
Lemma pairs_spec (raw : list Q) (n : nat) :
  length raw = (2 * n)%nat ->
  length (pairs raw) = n
  /\ forall i, (i < n)%nat ->
       exists x y,
         nth_error raw (2 * i) = Some x
         /\ nth_error raw (2 * i + 1) = Some y
         /\ nth_error (pairs raw) i = Some (mkComplex x y).
Proof.
  revert raw; induction n as [|n IH]; intros raw Hlen.
  - destruct raw; [|discriminate]. split; [reflexivity | intros i Hi; lia].
  - destruct raw as [|x [|y raw]]; try (cbn in Hlen; lia).
    assert (Hr : length raw = (2 * n)%nat) by (cbn in Hlen; lia).
    destruct (IH raw Hr) as [Hl Hnth].
    split; [cbn [pairs length]; now rewrite Hl|].
    intros [|i] Hi.
    + exists x, y. repeat split; reflexivity.
    + destruct (Hnth i ltac:(lia)) as (x' & y' & H1 & H2 & H3).
      exists x', y'.
      replace (2 * Datatypes.S i)%nat with (Datatypes.S (Datatypes.S (2 * i))) by lia.
      repeat split; assumption.
Qed.

(** What the receive path does with a buffer of even length: the paired
    samples are stored, and line 271 raises. *)
Lemma rx_only_even (self : Obj) (s s1 : S) (data : list Q) :
  handle s rx_buffered_data = (inl data, s1) ->
  Nat.even (length data) = true ->
  exec handle (rx_only false) self s
  = ([Ev rx_buffered_data (A_data data)],
     (Raised (TypeError "object of type 'bool' has no len()"),
      store_rx_data self (RxList (pairs data))),
     s1).
Proof.
  intros Hd He. unfold exec, rx_only.
  cbn -[Nat.modulo comprehension range_by_2]. rewrite Hd.
  cbn -[Nat.modulo comprehension range_by_2].
  rewrite odd_length_test, <- Nat.negb_even, He.
  cbn -[comprehension range_by_2].
  rewrite (comprehension_even _ He). reflexivity.
Qed.

(** C8: a buffer of odd length makes the receive raise the exception of
    line 264; no sample is returned, and the object, stored [rx_data]
    included, is as it was before the call. *)
Theorem rx_only_odd (self : Obj) (s s1 : S) (data : list Q) :
  handle s rx_buffered_data = (inl data, s1) ->
  Nat.odd (length data) = true ->
  exec handle (rx_only false) self s
  = ([Ev rx_buffered_data (A_data data)],
     (Raised (Exception_ "Complex data must have an even number of component channels"),
      self),
     s1).
Proof.
  intros Hd Ho. unfold exec, rx_only.
  cbn -[Nat.modulo comprehension range_by_2]. rewrite Hd.
  cbn -[Nat.modulo comprehension range_by_2].
  rewrite odd_length_test, Ho. reflexivity.
Qed.

(** C10: with [get] set, the receive returns the stored [rx_data] without
    any call to the device and without changing the object; and after a
    construction that ran to its end on an object without context, that
    stored value is the empty list. *)
Theorem rx_only_get (self : Obj) (s : S) :
  (forall v,
      rx_data self = Some v ->
      exec handle (rx_only true) self s = ([], (Returned v, self), s))
  /\ (forall uri,
        _ctx self = None ->
        let r := exec handle (init uri) self s in
        outcome_of r = Returned tt ->
        rx_data (self_of r) = Some (RxList [])
        /\ exec handle (rx_only true) (self_of r) (device_of r)
           = ([], (Returned (RxList []), self_of r), device_of r)).
Proof.
  split.
  - intros v Hv. unfold exec, rx_only, get_rx_data. cbn. rewrite Hv. reflexivity.
  - intros uri Hctx. cbv zeta.
    unfold exec, init, open_context, outcome_of, self_of, device_of.
    destruct self as [u ua c rx bs rd td]. cbn in Hctx. subst c. cbn.
    destruct (String.eqb uri ""); cbn.
    + destruct (String.eqb ua ""); cbn; [discriminate|].
      answer_call handle; [|discriminate].
      answer_call handle; [|discriminate].
      destruct x0 as [dev|]; cbn; [|discriminate].
      answer_call handle; [|discriminate].
      answer_call handle; [|discriminate].
      intros _. split; reflexivity.
    + answer_call handle; [|discriminate].
      answer_call handle; [|discriminate].
      destruct x0 as [dev|]; cbn; [|discriminate].
      answer_call handle; [|discriminate].
      answer_call handle; [|discriminate].
      intros _. split; reflexivity.
Qed.

End Methods.

(** ** The methods on the bench device *)

Module OnBench.

Import ad936x.

Lemma sample_rate_below_floor_witness :
  0 < 1000 < rate_floor
  /\ exec Bench.handle (sample_rate_set 1000) Bench.fresh Bench.idle
     = ([],
        (Raised (ValueError "Error: Does not currently support sample rates below 521e3"),
         Bench.fresh),
        Bench.idle).
Proof.
  assert (H : 0 < 1000 < rate_floor) by (unfold rate_floor; lia).
  split; [exact H|].
  exact (sample_rate_below_floor _ Bench.handle Bench.fresh Bench.idle 1000 H).
Defined.

Lemma commit_sequence_witness :
  rate_floor <= 1000000
  /\ answered (trace_of (exec Bench.handle (sample_rate_set 1000000) Bench.fresh Bench.idle))
     = true
  /\ narrowband 1000000
  /\ token_value Bench.rates_30720000 1 = ok 122880000
  /\ token_value Bench.rates_30720000 5 = ok 30720000
  /\ 30720000 <> 0
  /\ exists pre,
       trace_of (exec Bench.handle (sample_rate_set 1000000) Bench.fresh Bench.idle)
       = (pre ++ [Ev (write_fir_config (payload (filter_table 1000000))) A_done;
                  Ev read_tx_path_rates (A_str Bench.rates_30720000);
                  Ev (write_rate bootstrap_rate) A_done;
                  Ev (write_fir_en 1) A_done;
                  Ev (write_rate 1000000) A_done])%list
       /\ outcome_of (exec Bench.handle (sample_rate_set 1000000) Bench.fresh Bench.idle)
          = Returned tt.
Proof.
  assert (Hr : rate_floor <= 1000000) by (unfold rate_floor; lia).
  assert (Ha : answered (trace_of (exec Bench.handle (sample_rate_set 1000000)
                                        Bench.fresh Bench.idle)) = true)
    by (vm_compute; reflexivity).
  assert (Hn : narrowband 1000000) by (unfold narrowband; lia).
  assert (Hd : token_value Bench.rates_30720000 1 = ok 122880000)
    by (vm_compute; reflexivity).
  assert (Ht : token_value Bench.rates_30720000 5 = ok 30720000)
    by (vm_compute; reflexivity).
  assert (Hz : 30720000 <> 0) by lia.
  repeat (split; [assumption|]).
  destruct (commit_sequence _ Bench.handle Bench.fresh Bench.idle 1000000 Hr Ha)
    as (pre & tail & Htrace & Hpre & Hnarrow & _).
  destruct (Hnarrow Hn) as (readbuf & rest & -> & Hrest).
  assert (Hconcrete :
            trace_of (exec Bench.handle (sample_rate_set 1000000) Bench.fresh Bench.idle)
            = [Ev read_rate (A_int 30720000); Ev read_fir_en (A_int 0);
               Ev (write_fir_config (payload (filter_table 1000000))) A_done;
               Ev read_tx_path_rates (A_str Bench.rates_30720000);
               Ev (write_rate bootstrap_rate) A_done;
               Ev (write_fir_en 1) A_done;
               Ev (write_rate 1000000) A_done])
    by (vm_compute; reflexivity).
  rewrite Hconcrete in Htrace.
  assert (Hbuf : readbuf = Bench.rates_30720000).
  { destruct pre as [|p0 [|p1 [|p2 pre]]]; cbn [app] in Htrace.
    - discriminate Htrace.
    - discriminate Htrace.
    - now inversion Htrace.
    - exfalso. inversion Htrace; subst.
      apply (Hpre "filter_fir_config"%string (payload (filter_table 1000000)) A_done).
      right; right; left; reflexivity. }
  subst readbuf.
  destruct (Hrest 122880000 30720000 Hd Ht Hz) as [-> Ho].
  exists pre. split; [|exact Ho].
  rewrite Hconcrete. exact Htrace.
Defined.

Lemma bootstrap_before_disable_witness :
  let t := trace_of (exec Bench.handle (sample_rate_set 30000000) Bench.fresh Bench.filtering) in
  nth_error t 0 = Some (Ev read_rate (A_int 1000000))
  /\ nth_error t 1 = Some (Ev read_fir_en (A_int 1))
  /\ 1 <> 0
  /\ narrowband 1000000
  /\ nth_error t 2 = Some (Ev (write_rate bootstrap_rate) A_done)
  /\ exists a, nth_error t 3 = Some (Ev (write_fir_en 0) a).
Proof.
  cbv zeta.
  assert (H0 : nth_error (trace_of (exec Bench.handle (sample_rate_set 30000000)
                                         Bench.fresh Bench.filtering)) 0
               = Some (Ev read_rate (A_int 1000000))) by (vm_compute; reflexivity).
  assert (H1 : nth_error (trace_of (exec Bench.handle (sample_rate_set 30000000)
                                         Bench.fresh Bench.filtering)) 1
               = Some (Ev read_fir_en (A_int 1))) by (vm_compute; reflexivity).
  assert (Hen : 1 <> 0) by lia.
  assert (Hn : narrowband 1000000) by (unfold narrowband; lia).
  repeat (split; [assumption|]).
  destruct (bootstrap_before_disable _ Bench.handle Bench.fresh Bench.filtering
              30000000 1000000 1 H0 H1 Hen Hn) as (_ & Hnext & Honly).
  assert (H2 : nth_error (trace_of (exec Bench.handle (sample_rate_set 30000000)
                                         Bench.fresh Bench.filtering)) 2
               = Some (Ev (write_rate bootstrap_rate) A_done)) by (vm_compute; reflexivity).
  destruct (Hnext H2) as [a Ha].
  destruct (Honly 3%nat a Ha) as [_ Hboot].
  split; [exact Hboot | exists a; exact Ha].
Defined.

Lemma fir_config_written_witness :
  rate_floor <= 30000000
  /\ answered (trace_of (exec Bench.handle (sample_rate_set 30000000) Bench.fresh Bench.idle))
     = true
  /\ length (map coefficient_line fir_128_dec2) = 128%nat
  /\ In (Ev (write_fir_config
               (unlines ("RX 3 GAIN -6 DEC 2"%string
                         :: "TX 3 GAIN 0 INT 2"%string
                         :: map coefficient_line fir_128_dec2 ++ [EmptyString])))
            A_done)
        (trace_of (exec Bench.handle (sample_rate_set 30000000) Bench.fresh Bench.idle)).
Proof.
  assert (Hr : rate_floor <= 30000000) by (unfold rate_floor; lia).
  assert (Ha : answered (trace_of (exec Bench.handle (sample_rate_set 30000000)
                                        Bench.fresh Bench.idle)) = true)
    by (vm_compute; reflexivity).
  split; [exact Hr | split; [exact Ha|]].
  destruct (fir_config_written _ Bench.handle Bench.fresh Bench.idle 30000000 Hr)
    as (Hlen & _ & Hin).
  split; [exact Hlen | exact (Hin Ha)].
Defined.

Lemma bootstrap_before_enable_witness :
  answered (trace_of (exec Bench.handle (sample_rate_set 1000000) Bench.fresh Bench.ratio_7)) = true
  /\ In (Ev read_tx_path_rates (A_str (Bench.tx_path_rates Bench.ratio_7)))
        (trace_of (exec Bench.handle (sample_rate_set 1000000) Bench.fresh Bench.ratio_7))
  /\ max_rate_of (Bench.tx_path_rates Bench.ratio_7) = ok 112
  /\ 112 < Z.of_nat (taps (filter_table 1000000))
  /\ exists pre,
       trace_of (exec Bench.handle (sample_rate_set 1000000) Bench.fresh Bench.ratio_7)
       = (pre ++ [Ev (write_rate bootstrap_rate) A_done;
                  Ev (write_fir_en 1) A_done;
                  Ev (write_rate 1000000) A_done])%list
       /\ outcome_of (exec Bench.handle (sample_rate_set 1000000) Bench.fresh Bench.ratio_7)
          = Returned tt.
Proof.
  assert (Ha : answered (trace_of (exec Bench.handle (sample_rate_set 1000000)
                                        Bench.fresh Bench.ratio_7)) = true)
    by (vm_compute; reflexivity).
  assert (Hin : In (Ev read_tx_path_rates (A_str (Bench.tx_path_rates Bench.ratio_7)))
                   (trace_of (exec Bench.handle (sample_rate_set 1000000)
                                   Bench.fresh Bench.ratio_7)))
    by (vm_compute; right; right; right; left; reflexivity).
  assert (Hm : max_rate_of (Bench.tx_path_rates Bench.ratio_7) = ok 112)
    by (vm_compute; reflexivity).
  assert (Hlt : 112 < Z.of_nat (taps (filter_table 1000000)))
    by (vm_compute; reflexivity).
  repeat (split; [assumption|]).
  exact (proj2 (proj2 (bootstrap_before_enable _ Bench.handle Bench.fresh Bench.ratio_7
                         (Bench.tx_path_rates Bench.ratio_7) 112 Ha Hin Hm Hlt))).
Defined.

(** The scenario with 1800: over the rationals the two rates of
    [Bench.ratio_112_5] give [(225 / 2) * 16 = 1800]; the setter computes
    [(225 // 2) * 16 = 1792], which is not less than the 128 taps, and
    enables the filter without any bootstrap write.  No text of
    [tx_path_rates] makes the setter compute 1800. *)
Lemma scenario_1800_no_bootstrap :
  token_value (Bench.tx_path_rates Bench.ratio_112_5) 1 = ok 225
  /\ token_value (Bench.tx_path_rates Bench.ratio_112_5) 5 = ok 2
  /\ exact_ratio_times_16 225 2 1800
  /\ taps (filter_table 1000000) = 128%nat
  /\ max_rate_of (Bench.tx_path_rates Bench.ratio_112_5) = ok 1792
  /\ trace_of (exec Bench.handle (sample_rate_set 1000000) Bench.fresh Bench.ratio_112_5)
     = [Ev read_rate (A_int 30720000); Ev read_fir_en (A_int 0);
        Ev (write_fir_config (payload (filter_table 1000000))) A_done;
        Ev read_tx_path_rates (A_str (Bench.tx_path_rates Bench.ratio_112_5));
        Ev (write_fir_en 1) A_done;
        Ev (write_rate 1000000) A_done]
  /\ (forall a, ~ In (Ev (write_rate bootstrap_rate) a)
                    (trace_of (exec Bench.handle (sample_rate_set 1000000)
                                    Bench.fresh Bench.ratio_112_5)))
  /\ (forall readbuf, max_rate_of readbuf <> ok 1800).
Proof.
  assert (Ht : trace_of (exec Bench.handle (sample_rate_set 1000000)
                              Bench.fresh Bench.ratio_112_5)
               = [Ev read_rate (A_int 30720000); Ev read_fir_en (A_int 0);
                  Ev (write_fir_config (payload (filter_table 1000000))) A_done;
                  Ev read_tx_path_rates (A_str (Bench.tx_path_rates Bench.ratio_112_5));
                  Ev (write_fir_en 1) A_done;
                  Ev (write_rate 1000000) A_done]) by (vm_compute; reflexivity).
  split; [vm_compute; reflexivity|].
  split; [vm_compute; reflexivity|].
  split; [unfold exact_ratio_times_16; lia|].
  split; [reflexivity|].
  split; [vm_compute; reflexivity|].
  split; [exact Ht|].
  split.
  - intros a Hin. rewrite Ht in Hin. cbn [In] in Hin.
    unfold bootstrap_rate in Hin.
    repeat (destruct Hin as [Hin|Hin]; [discriminate Hin|]). exact Hin.
  - intros readbuf Hv. apply max_rate_of_multiple in Hv as [q Hq]. lia.
Qed.

Lemma rx_only_odd_witness :
  Bench.handle Bench.odd_buffer rx_buffered_data = (inl [1#1; 2#1; 3#1], Bench.odd_buffer)
  /\ Nat.odd (length [1#1; 2#1; 3#1]) = true
  /\ exec Bench.handle (rx_only false) Bench.fresh Bench.odd_buffer
     = ([Ev rx_buffered_data (A_data [1#1; 2#1; 3#1])],
        (Raised (Exception_ "Complex data must have an even number of component channels"),
         Bench.fresh),
        Bench.odd_buffer).
Proof.
  assert (Hd : Bench.handle Bench.odd_buffer rx_buffered_data = (inl [1#1; 2#1; 3#1], Bench.odd_buffer))
    by reflexivity.
  assert (Ho : Nat.odd (length [1#1; 2#1; 3#1]) = true) by reflexivity.
  split; [exact Hd | split; [exact Ho|]].
  exact (rx_only_odd _ Bench.handle Bench.fresh Bench.odd_buffer Bench.odd_buffer _ Hd Ho).
Defined.

(** C1 on the buffer [1, 2, 3, 4]: the two samples [1+2j] and [3+4j] are
    stored in [rx_data], and the call ends in the [TypeError] of line 271
    instead of returning them. *)
Theorem rx_only_even_buffer_raises :
  exec Bench.handle (rx_only false) Bench.fresh Bench.even_buffer
  = ([Ev rx_buffered_data (A_data [1#1; 2#1; 3#1; 4#1])],
     (Raised (TypeError "object of type 'bool' has no len()"),
      store_rx_data Bench.fresh
        (RxList [mkComplex (1#1) (2#1); mkComplex (3#1) (4#1)])),
     Bench.even_buffer).
Proof. vm_compute. reflexivity. Qed.

(** On a device in [slow_attack] mode the setter of [rx_hardwaregain]
    reads the mode and writes nothing. *)
Lemma rx_hardwaregain_not_written :
  exec Bench.handle (rx_hardwaregain_set (PyFloat (10#1))) Bench.fresh Bench.idle
  = ([Ev read_gain_mode (A_str "slow_attack")], (Returned tt, Bench.fresh), Bench.idle)
  /\ ~ single_call Bench.handle (rx_hardwaregain_set (PyFloat (10#1)))
        (set_iio_attr_float "voltage0" "hardwaregain" false (PyFloat (10#1)))
        Bench.fresh Bench.idle.
Proof.
  split; [vm_compute; reflexivity|].
  intros (Ht & _). vm_compute in Ht. discriminate Ht.
Qed.

Lemma setters_pass_through_witness :
  Bench.handle Bench.filtering read_gain_mode = (inl "manual"%string, Bench.filtering)
  /\ trace_of (exec Bench.handle (rx_hardwaregain_set (PyFloat (10#1))) Bench.fresh Bench.filtering)
     = [Ev read_gain_mode (A_str "manual");
        Ev (set_iio_attr_float "voltage0" "hardwaregain" false (PyFloat (10#1))) A_done]
  /\ Bench.handle Bench.idle read_gain_mode = (inl "slow_attack"%string, Bench.idle)
  /\ "slow_attack"%string <> "manual"%string
  /\ exec Bench.handle (rx_hardwaregain_set (PyFloat (10#1))) Bench.fresh Bench.idle
     = ([Ev read_gain_mode (A_str "slow_attack")], (Returned tt, Bench.fresh), Bench.idle).
Proof.
  assert (Hm : Bench.handle Bench.filtering read_gain_mode = (inl "manual"%string, Bench.filtering))
    by reflexivity.
  assert (Hs : Bench.handle Bench.idle read_gain_mode
               = (inl "slow_attack"%string, Bench.idle)) by reflexivity.
  assert (Hne : "slow_attack"%string <> "manual"%string) by discriminate.
  split; [exact Hm|].
  split.
  - exact (proj1 (proj2 (proj2 (proj2 (proj2 (proj2 (proj2
             (setters_pass_through _ Bench.handle Bench.fresh Bench.filtering
                (PyFloat (10#1)))))))) _ _ Hm) eq_refl).
  - split; [exact Hs | split; [exact Hne|]].
    exact (proj2 (proj2 (proj2 (proj2 (proj2 (proj2 (proj2
             (setters_pass_through _ Bench.handle Bench.fresh Bench.idle
                (PyFloat (10#1)))))))) _ _ Hs) Hne).
Defined.

Lemma rx_only_get_witness :
  _ctx Bench.fresh = None
  /\ outcome_of (exec Bench.handle (init "ip:pluto") Bench.fresh Bench.idle) = Returned tt
  /\ exec Bench.handle (rx_only true)
       (self_of (exec Bench.handle (init "ip:pluto") Bench.fresh Bench.idle)) Bench.idle
     = ([], (Returned (RxList []),
             self_of (exec Bench.handle (init "ip:pluto") Bench.fresh Bench.idle)),
        Bench.idle)
  /\ rx_data (store_rx_data Bench.fresh (RxItem (mkComplex (1#1) (2#1))))
     = Some (RxItem (mkComplex (1#1) (2#1)))
  /\ exec Bench.handle (rx_only true)
       (store_rx_data Bench.fresh (RxItem (mkComplex (1#1) (2#1)))) Bench.idle
     = ([], (Returned (RxItem (mkComplex (1#1) (2#1))),
             store_rx_data Bench.fresh (RxItem (mkComplex (1#1) (2#1)))),
        Bench.idle).
Proof.
  assert (Hc : _ctx Bench.fresh = None) by reflexivity.
  assert (Ho : outcome_of (exec Bench.handle (init "ip:pluto") Bench.fresh Bench.idle)
               = Returned tt) by reflexivity.
  split; [exact Hc | split; [exact Ho|]].
  split.
  - exact (proj2 (proj2 (rx_only_get _ Bench.handle Bench.fresh Bench.idle)
                    "ip:pluto"%string Hc Ho)).
  - split; [reflexivity|].
    exact (proj1 (rx_only_get _ Bench.handle
                    (store_rx_data Bench.fresh (RxItem (mkComplex (1#1) (2#1))))
                    Bench.idle) _ eq_refl).
Defined.

End OnBench.

(** * Further properties *)

(** ** The filter profiles *)

(** X1: whatever the rate, the selected profile has decimation 2 or 4, has
    64, 96 or 128 taps (a multiple of sixteen), carries as many coefficients
    as taps, and every coefficient fits a signed 16-bit word. *)
Theorem filter_profile_invariant (rate : Z) :
  let p := filter_table rate in
  (dec p = 2 \/ dec p = 4)
  /\ (taps p = 64 \/ taps p = 96 \/ taps p = 128)%nat
  /\ (taps p mod 16 = 0)%nat
  /\ length (fir p) = taps p
  /\ Forall (fun c => -32768 <= c <= 32767) (fir p).
Proof.
  cbv zeta.
  assert (Hrange : forall l : list Z,
             forallb (fun c => (-32768 <=? c) && (c <=? 32767)) l = true ->
             Forall (fun c => -32768 <= c <= 32767) l).
  { intros l Hl. apply Forall_forall. intros c Hc.
    rewrite forallb_forall in Hl. specialize (Hl c Hc).
    apply andb_true_iff in Hl as [H1 H2].
    apply Z.leb_le in H1, H2. lia. }
  destruct (filter_table_cases rate) as [[_ ->]|[[_ ->]|[[_ ->]|[_ ->]]]];
    cbn [dec taps fir];
    (repeat apply conj;
     [ auto | auto | reflexivity | reflexivity
     | apply Hrange; vm_compute; reflexivity ]).
Qed.

(** The third element from the end of a list. *)
Lemma last_three {A : Type} (l1 l2 : list A) (a b c a' b' c' : A) :
  (l1 ++ [a; b; c] = l2 ++ [a'; b'; c'])%list -> a = a'.
Proof.
  change (l1 ++ [a; b; c])%list with (l1 ++ [a] ++ [b] ++ [c])%list.
  change (l2 ++ [a'; b'; c'])%list with (l2 ++ [a'] ++ [b'] ++ [c'])%list.
  rewrite !app_assoc. intros H.
  apply app_inj_tail in H as [H _].
  apply app_inj_tail in H as [H _].
  apply app_inj_tail in H as [_ H]. exact H.
Qed.

(** ** More on the executions of the [sample_rate] setter *)

Section Setter.

Variable S : Type.
Variable handle : S -> forall c : Call, Exc (Resp c) * S.

Import ad936x.

(** An answered execution that read [readbuf] from [tx_path_rates] is a
    narrowband one, and [readbuf] fixes how it ends. *)
Lemma answered_run_readbuf (self : Obj) (s : S) (rate : Z) (readbuf : string) :
  rate_floor <= rate ->
  let r := exec handle (sample_rate_set rate) self s in
  answered (trace_of r) = true ->
  In (Ev read_tx_path_rates (A_str readbuf)) (trace_of r) ->
  narrowband rate
  /\ outcome_of r = commit_outcome rate readbuf
  /\ exists cur en,
       trace_of r
       = ([Ev read_rate (A_int cur); Ev read_fir_en (A_int en)]
          ++ disable_events cur en
          ++ [Ev (write_fir_config (payload (filter_table rate))) A_done]
          ++ commit_events rate readbuf)%list.
Proof.
  cbv zeta. intros Hr Hans Hin.
  destruct (answered_run S handle self s rate Hr Hans)
    as (cur & en & readbuf' & Ht & Ho).
  rewrite Ht in Hin. rewrite Ho, Ht. clear Ht Ho Hans.
  rewrite app_assoc in Hin.
  apply in_app_or in Hin as [Hin|Hin];
    [now apply disable_events_no_read in Hin|].
  destruct Hin as [Hin|Hin]; [discriminate|].
  unfold commit_events in Hin. change (25000000 / 12) with 2083333 in Hin.
  destruct (rate <=? 2083333) eqn:Hn.
  - assert (Hb : readbuf' = readbuf).
    { destruct Hin as [[= ->]|Hin]; [reflexivity|].
      exfalso. destruct (max_rate_of readbuf') as [m|]; [|exact Hin].
      destruct (m <? Z.of_nat (taps (filter_table rate)));
        cbn in Hin; intuition discriminate. }
    subst readbuf'. split; [now apply narrowband_leb|].
    split; [reflexivity|]. now exists cur, en.
  - exfalso. cbn in Hin. intuition discriminate.
Qed.

(** X2: the setter touches the device exactly when the requested rate is at
    least 521,000.  Below, zero and negative rates included, it raises
    [ValueError] with an empty trace; from the floor upwards its first call
    reads the committed sampling frequency. *)
Theorem sample_rate_first_call (self : Obj) (s : S) (rate : Z) :
  let r := exec handle (sample_rate_set rate) self s in
  (rate < rate_floor ->
   r = ([],
        (Raised (ValueError "Error: Does not currently support sample rates below 521e3"),
         self),
        s))
  /\ (rate_floor <= rate -> exists a, nth_error (trace_of r) 0 = Some (Ev read_rate a)).
Proof.
  cbv zeta. unfold rate_floor, exec, sample_rate_set, trace_of. split; intros Hr.
  - destruct (Z.ltb_spec rate 521000); [reflexivity | lia].
  - destruct (Z.ltb_spec rate 521000); [lia|]. cbn. eexists. reflexivity.
Qed.

(** X3: the setter never assigns an attribute of the object: [self] is the
    same after the call, whatever the rate and whatever the device answers. *)
Theorem sample_rate_preserves_self (self : Obj) (s : S) (rate : Z) :
  self_of (exec handle (sample_rate_set rate) self s) = self.
Proof.
  unfold exec, sample_rate_set, self_of.
  rewrite fir_config_string_table.
  destruct (rate <? 521000); cbn; [reflexivity|].
  repeat (first [answer_call handle | branch]); reflexivity.
Qed.

(** X4: the setter issues at most nine calls, each one of: the two reads of
    the rate and of the filter flag, a write of the rate to 3,000,000 or to
    the requested rate, a write of the filter flag to 0 or 1, the write of
    the filter payload, the read of [tx_path_rates]; and that last read
    happens only for a requested rate at or below [25000000 / 12]. *)
Theorem sample_rate_calls (self : Obj) (s : S) (rate : Z) (i : nat) (c : Call) (a : Answer) :
  nth_error (trace_of (exec handle (sample_rate_set rate) self s)) i = Some (Ev c a) ->
  (i < 9)%nat
  /\ In c (setter_calls rate)
  /\ (c = read_tx_path_rates -> narrowband rate).
Proof.
  unfold exec, sample_rate_set, trace_of, setter_calls.
  rewrite fir_config_string_table.
  destruct (rate <? 521000); cbn; [destruct i; discriminate|].
  revert i.
  repeat (first [answer_call handle | branch]).
  all: intros i Hi; locate i Hi.
  all: try (destruct i; discriminate).
  all: injection Hi as <- _.
  all: (split; [lia|]).
  all: (split; [cbn [In]; unfold bootstrap_rate; tauto|]).
  all: intros Hc; try discriminate Hc.
  all: apply narrowband_leb; assumption.
Qed.

(** X5: an exception raised by a device helper ends the setter at once: the
    raising call is the last of the trace, and the setter raises that same
    exception. *)
Theorem sample_rate_failure_stops (self : Obj) (s : S) (rate : Z)
    (i : nat) (c : Call) (e : PyExc) :
  let r := exec handle (sample_rate_set rate) self s in
  nth_error (trace_of r) i = Some (Ev c (A_raise e)) ->
  length (trace_of r) = Datatypes.S i /\ outcome_of r = Raised e.
Proof.
  cbv zeta. unfold exec, sample_rate_set, trace_of, outcome_of.
  rewrite fir_config_string_table.
  destruct (rate <? 521000); cbn; [destruct i; discriminate|].
  revert i.
  repeat (first [answer_call handle | branch]).
  all: intros i Hi; locate i Hi.
  all: try (destruct i; discriminate).
  all: injection Hi as _ <-; split; reflexivity.
Qed.

(** A setter that returns was answered at every call. *)
Lemma returned_answered (self : Obj) (s : S) (rate : Z) :
  let r := exec handle (sample_rate_set rate) self s in
  outcome_of r = Returned tt -> answered (trace_of r) = true.
Proof.
  cbv zeta. unfold exec, sample_rate_set, trace_of, outcome_of.
  rewrite fir_config_string_table.
  destruct (rate <? 521000); cbn; [discriminate|].
  repeat (first [answer_call handle | branch]); first [discriminate | reflexivity].
Qed.

(** X6: from the floor upwards, the setter returns normally exactly when the
    device answered every call and, for a rate at or below [25000000 / 12],
    the text read from [tx_path_rates] gave a value: two rates that parse
    and a TX rate that is not zero. *)
Theorem sample_rate_returns_iff (self : Obj) (s : S) (rate : Z) :
  rate_floor <= rate ->
  let r := exec handle (sample_rate_set rate) self s in
  outcome_of r = Returned tt
  <-> answered (trace_of r) = true
      /\ (narrowband rate ->
          exists readbuf max_rate,
            In (Ev read_tx_path_rates (A_str readbuf)) (trace_of r)
            /\ max_rate_of readbuf = ok max_rate).
Proof.
  cbv zeta. intros Hr. split.
  - intros Hret. pose proof (returned_answered self s rate Hret) as Hans.
    split; [exact Hans|]. intros Hn.
    destruct (answered_run S handle self s rate Hr Hans)
      as (cur & en & readbuf & Ht & Ho).
    rewrite Ho in Hret. unfold commit_outcome in Hret.
    apply narrowband_leb in Hn.
    change (25000000 / 12) with 2083333 in Hret. rewrite Hn in Hret.
    destruct (max_rate_of readbuf) as [m|] eqn:Hm; [|discriminate].
    exists readbuf, m. split; [|exact Hm].
    rewrite Ht. unfold commit_events.
    change (25000000 / 12) with 2083333. rewrite Hn.
    apply in_or_app; right. apply in_or_app; right. right. left. reflexivity.
  - intros [Hans Hparse].
    destruct (Z.leb_spec rate 2083333) as [Hle|Hgt].
    + assert (Hn : narrowband rate) by (apply narrowband_leb, Z.leb_le; exact Hle).
      destruct (Hparse Hn) as (readbuf & m & Hin & Hm).
      destruct (answered_run_readbuf self s rate readbuf Hr Hans Hin) as (_ & Ho & _).
      rewrite Ho. unfold commit_outcome. rewrite Hm.
      destruct (rate <=? 25000000 / 12); reflexivity.
    + destruct (answered_run S handle self s rate Hr Hans)
        as (cur & en & readbuf & _ & Ho).
      rewrite Ho. unfold commit_outcome. change (25000000 / 12) with 2083333.
      destruct (Z.leb_spec rate 2083333); [lia | reflexivity].
Qed.

(** X7: when the device answers every call but the text of [tx_path_rates]
    makes lines 193-195 raise, the setter raises that exception right after
    the read: the filter payload has been written, the filter is not
    enabled again, and the requested rate is not committed. *)
Theorem rates_error_aborts (self : Obj) (s : S) (rate : Z) (readbuf : string) (err : PyExc) :
  rate_floor <= rate ->
  let r := exec handle (sample_rate_set rate) self s in
  answered (trace_of r) = true ->
  In (Ev read_tx_path_rates (A_str readbuf)) (trace_of r) ->
  max_rate_of readbuf = inr err ->
  outcome_of r = Raised err
  /\ (exists pre,
        trace_of r
        = (pre ++ [Ev (write_fir_config (payload (filter_table rate))) A_done;
                   Ev read_tx_path_rates (A_str readbuf)])%list)
  /\ (forall a, ~ In (Ev (write_fir_en 1) a) (trace_of r))
  /\ (forall a, ~ In (Ev (write_rate rate) a) (trace_of r)).
Proof.
  cbv zeta. intros Hr Hans Hin Herr.
  destruct (answered_run_readbuf self s rate readbuf Hr Hans Hin)
    as (Hn & Ho & cur & en & Ht).
  assert (Hrate : rate <= 2083333) by (unfold narrowband in Hn; lia).
  apply narrowband_leb in Hn.
  rewrite Ho, Ht. unfold commit_outcome, commit_events.
  change (25000000 / 12) with 2083333. rewrite Hn, Herr. clear Ho Ht Hin Hans.
  split; [reflexivity|]. split; [|split].
  - exists ([Ev read_rate (A_int cur); Ev read_fir_en (A_int en)]
            ++ disable_events cur en)%list.
    rewrite <- !app_assoc. reflexivity.
  - intros a Hin. unfold disable_events in Hin.
    destruct (negb (en =? 0)); [destruct (cur <=? 25000000 / 12)|];
      cbn in Hin; intuition discriminate.
  - intros a Hin. unfold disable_events, bootstrap_rate in Hin.
    destruct (negb (en =? 0)); [destruct (cur <=? 25000000 / 12)|];
      cbn in Hin; among Hin; injection Hin as Heq; lia.
Qed.

(** X8: lines 193-195 raise on a text with fewer than six fields separated
    by single spaces, and raise [ZeroDivisionError] when the sixth field
    gives a TX rate of zero. *)
Theorem max_rate_of_raises (readbuf : string) :
  ((length (Py.split " " readbuf) <= 5)%nat ->
   exists err, max_rate_of readbuf = inr err)
  /\ (forall dacrate,
        token_value readbuf 1 = ok dacrate ->
        token_value readbuf 5 = ok 0 ->
        max_rate_of readbuf
        = inr (ZeroDivisionError "integer division or modulo by zero")).
Proof.
  split.
  - intros Hlen. unfold max_rate_of.
    destruct (token_value readbuf 1) as [d|e]; [|now exists e].
    unfold ebind at 1.
    assert (Hfive : exists e, token_value readbuf 5 = inr e).
    { unfold token_value, Py.index.
      destruct (nth_error (Py.split " " readbuf) 5) eqn:Hn.
      - assert (Hsome : nth_error (Py.split " " readbuf) 5 <> None) by congruence.
        apply nth_error_Some in Hsome. lia.
      - eexists. reflexivity. }
    destruct Hfive as [e ->]. now exists e.
  - intros dacrate Hd Ht. unfold max_rate_of. rewrite Hd, Ht. reflexivity.
Qed.

(** X9: a rate at or below [25000000 / 12] always selects decimation 4 and
    128 taps, so that in an answered execution whose two rates parse, the
    bootstrap write precedes the enabling of the filter exactly when the
    DAC rate is less than eight times the TX rate (floor quotient below 8). *)
Theorem narrowband_bootstrap_iff (self : Obj) (s : S) (rate : Z)
    (readbuf : string) (dacrate txrate : Z) :
  rate_floor <= rate ->
  let r := exec handle (sample_rate_set rate) self s in
  answered (trace_of r) = true ->
  In (Ev read_tx_path_rates (A_str readbuf)) (trace_of r) ->
  token_value readbuf 1 = ok dacrate ->
  token_value readbuf 5 = ok txrate ->
  txrate <> 0 ->
  dec (filter_table rate) = 4
  /\ taps (filter_table rate) = 128%nat
  /\ ((exists pre,
         trace_of r
         = (pre ++ [Ev (write_rate bootstrap_rate) A_done;
                    Ev (write_fir_en 1) A_done;
                    Ev (write_rate rate) A_done])%list)
      <-> dacrate / txrate < 8).
Proof.
  cbv zeta. intros Hr Hans Hin Hd Htx Hz.
  destruct (answered_run_readbuf self s rate readbuf Hr Hans Hin)
    as (Hn & _ & cur & en & Ht).
  assert (Hrate : rate <= 2083333) by (unfold narrowband in Hn; lia).
  assert (Hp : filter_table rate = mkProfile 4 fir_128_dec4 128).
  { destruct (filter_table_cases rate) as [[_ H]|[[H _]|[[H _]|[H _]]]];
      [exact H | lia | lia | lia]. }
  split; [now rewrite Hp | split; [now rewrite Hp|]].
  rewrite Ht. unfold commit_events.
  apply narrowband_leb in Hn. change (25000000 / 12) with 2083333. rewrite Hn.
  rewrite (max_rate_of_tokens _ _ _ Hd Htx Hz). unfold ok.
  replace (taps (filter_table rate)) with 128%nat by (now rewrite Hp).
  change (Z.of_nat 128) with 128.
  clear Ht Hin Hans.
  set (front := ([Ev read_rate (A_int cur); Ev read_fir_en (A_int en)]
                 ++ disable_events cur en)%list).
  destruct (Z.ltb_spec (dacrate / txrate * 16) 128) as [Hlt|Hge]; cbn [app].
  - split; [intros _; lia|]. intros _.
    exists (front ++ [Ev (write_fir_config (payload (filter_table rate))) A_done;
                      Ev read_tx_path_rates (A_str readbuf)])%list.
    rewrite <- !app_assoc. reflexivity.
  - match goal with
    | |- (exists pre, ?L = _) <-> _ =>
        assert (HL : L = ((front ++ [Ev (write_fir_config (payload (filter_table rate)))
                                        A_done])
                          ++ [Ev read_tx_path_rates (A_str readbuf);
                              Ev (write_fir_en 1) A_done;
                              Ev (write_rate rate) A_done])%list)
          by (subst front; rewrite <- !app_assoc; reflexivity);
        rewrite HL
    end.
    split; [|intros; lia]. intros [pre Hpre]. exfalso.
    apply last_three in Hpre. discriminate Hpre.
Qed.

(** X10: the filter is disabled only when its flag read as set.  With the
    flag at zero the setter goes straight from the two reads to the filter
    payload and never writes the flag to 0; with the flag set and a
    committed rate above [25000000 / 12] the disabling write is the third
    call, without a bootstrap write before it. *)
Theorem disable_when_enabled (self : Obj) (s : S) (rate cur en : Z) :
  let t := trace_of (exec handle (sample_rate_set rate) self s) in
  nth_error t 0 = Some (Ev read_rate (A_int cur)) ->
  nth_error t 1 = Some (Ev read_fir_en (A_int en)) ->
  (en = 0 ->
   (exists a, nth_error t 2
              = Some (Ev (write_fir_config (payload (filter_table rate))) a))
   /\ forall i a, nth_error t i <> Some (Ev (write_fir_en 0) a))
  /\ (en <> 0 -> ~ narrowband cur ->
      exists a, nth_error t 2 = Some (Ev (write_fir_en 0) a)).
Proof.
  cbv zeta. unfold exec, sample_rate_set, trace_of.
  rewrite fir_config_string_table.
  destruct (rate <? 521000); cbn; [discriminate|].
  answer_call handle; [|discriminate]. intros [= ->].
  answer_call handle; [|discriminate]. intros [= ->].
  split.
  - intros ->. cbn.
    repeat (first [answer_call handle | branch]).
    all: split; [eexists; reflexivity|].
    all: intros i a Hi; locate i Hi.
    all: try (destruct i; discriminate).
  - intros Hen Hcur. rewrite narrowband_leb in Hcur.
    destruct (Z.eqb_spec en 0) as [|_]; [contradiction|].
    destruct (cur <=? 2083333); [now elim Hcur|]. cbn.
    answer_call handle; eexists; reflexivity.
Qed.

End Setter.

(** ** More on receiving, construction and the properties *)

Section Object.

Variable S : Type.
Variable handle : S -> forall c : Call, Exc (Resp c) * S.

Import ad936x.

(** X11: a receive that fetches a buffer never returns.  It makes the one
    call to [_rx_buffered_data] and raises: the exception of the helper,
    the parity exception of line 264, or the [TypeError] of line 271.  The
    object is left as it was, except in that last case, where [rx_data] has
    become the list of paired samples. *)
Theorem rx_only_always_raises (self : Obj) (s : S) :
  let r := exec handle (rx_only false) self s in
  exists a e,
    trace_of r = [Ev rx_buffered_data a]
    /\ outcome_of r = Raised e
    /\ (self_of r = self
        \/ exists data,
             a = A_data data
             /\ Nat.even (length data) = true
             /\ self_of r = store_rx_data self (RxList (pairs data))).
Proof.
  cbv zeta.
  destruct (handle s rx_buffered_data) as [[data|e] s1] eqn:Hd.
  - destruct (Nat.even (length data)) eqn:He.
    + rewrite (rx_only_even S handle self s s1 data Hd He).
      eexists _, _. split; [reflexivity | split; [reflexivity|]].
      right. exists data. repeat split. exact He.
    + unfold exec, rx_only.
      cbn -[Nat.modulo comprehension range_by_2]. rewrite Hd.
      cbn -[Nat.modulo comprehension range_by_2].
      rewrite odd_length_test, <- Nat.negb_even, He.
      eexists _, _. split; [reflexivity | split; [reflexivity|]].
      left. reflexivity.
  - unfold exec, rx_only.
    cbn -[Nat.modulo comprehension range_by_2]. rewrite Hd.
    eexists _, _. split; [reflexivity | split; [reflexivity|]].
    left. reflexivity.
Qed.

(** X12: the samples of an even-length buffer are nonetheless available:
    after the receive that raised, a receive with [get] set returns the
    stored list without touching the device; for a buffer of length [2n]
    it has [n] samples, sample [i] having real part [data[2i]] and
    imaginary part [data[2i+1]]. *)
Theorem rx_only_then_get (self : Obj) (s s1 : S) (data : list Q) (n : nat) :
  handle s rx_buffered_data = (inl data, s1) ->
  length data = (2 * n)%nat ->
  let r := exec handle (rx_only false) self s in
  exec handle (rx_only true) (self_of r) (device_of r)
  = ([], (Returned (RxList (pairs data)), self_of r), s1)
  /\ length (pairs data) = n
  /\ forall i, (i < n)%nat ->
       exists x y,
         nth_error data (2 * i) = Some x
         /\ nth_error data (2 * i + 1) = Some y
         /\ nth_error (pairs data) i = Some (mkComplex x y).
Proof.
  intros Hd Hlen. cbv zeta.
  assert (He : Nat.even (length data) = true)
    by (apply Nat.even_spec; exists n; exact Hlen).
  rewrite (rx_only_even S handle self s s1 data Hd He).
  split; [reflexivity|]. exact (pairs_spec data n Hlen).
Qed.

(** X13: a construction that returns, on an object without context, has
    opened the chosen address, found the RX data device on that context and
    run the two channel hooks, in that order; it leaves the address, the two
    handles, a buffer size of 1024 and empty [rx_data] and [tx_data]. *)
Theorem init_success (self : Obj) (s : S) (uri : string) :
  _ctx self = None ->
  let r := exec handle (init uri) self s in
  outcome_of r = Returned tt ->
  exists ctx dev,
    trace_of r
    = [Ev (iio_Context (chosen_uri uri self)) (A_handle (Some ctx));
       Ev (find_device ctx "cf-ad9361-lpc") (A_handle (Some dev));
       Ev rx_init_channels A_done;
       Ev tx_init_channels A_done]
    /\ self_of r
       = mkObj (Some uri) (_uri_auto self) (Some ctx) (Some dev)
               (Some 1024) (Some (RxList [])) (Some []).
Proof.
  intros Hctx. cbv zeta.
  unfold exec, init, open_context, outcome_of, self_of, trace_of, chosen_uri.
  destruct self as [u ua c rx bs rd td]. cbn in Hctx. subst c. cbn.
  destruct (String.eqb uri "") eqn:Hu; cbn.
  - apply String.eqb_eq in Hu. subst uri.
    destruct (String.eqb ua ""); cbn; [discriminate|].
    answer_call handle; [|discriminate].
    answer_call handle; [|discriminate].
    destruct x0 as [dev|]; cbn; [|discriminate].
    answer_call handle; [|discriminate].
    answer_call handle; [|discriminate].
    intros _. exists x, dev. split; reflexivity.
  - answer_call handle; [|discriminate].
    answer_call handle; [|discriminate].
    destruct x0 as [dev|]; cbn; [|discriminate].
    answer_call handle; [|discriminate].
    answer_call handle; [|discriminate].
    intros _. exists x, dev. split; reflexivity.
Qed.

(** X14: construction happens once.  On an object that has a context,
    [__init__] returns at line 224 without a call and without an
    assignment; so a second [__init__] after one that returned does
    nothing, whatever address it is given. *)
Theorem init_once (self : Obj) (s : S) (uri : string) :
  (forall ctx,
      _ctx self = Some ctx ->
      exec handle (init uri) self s = ([], (Returned tt, self), s))
  /\ (_ctx self = None ->
      let r := exec handle (init uri) self s in
      outcome_of r = Returned tt ->
      forall uri',
        exec handle (init uri') (self_of r) (device_of r)
        = ([], (Returned tt, self_of r), device_of r)).
Proof.
  assert (Hguard : forall (o : Obj) (d : S) (u : string) (ctx : Z),
             _ctx o = Some ctx ->
             exec handle (init u) o d = ([], (Returned tt, o), d)).
  { intros o d u ctx Hc. unfold exec, init. cbn. rewrite Hc. reflexivity. }
  split; [intros ctx; apply Hguard|].
  intros Hctx. cbv zeta. intros Hret uri'.
  destruct (init_success self s uri Hctx Hret) as (ctx & dev & _ & Hself).
  apply (Hguard _ _ _ ctx). rewrite Hself. reflexivity.
Qed.

(** X15: how construction fails on an object without context.  Without any
    address (empty argument and empty [_uri_auto]) it raises
    [No device found] before any call; an exception of [iio.Context] is
    replaced by [No device found]; a context without the RX data device
    raises [No device found with name cf-ad9361-lpc] before the channel
    hooks run; and a construction that does not return leaves [rx_data],
    [tx_data] and the buffer size as they were. *)
Theorem init_failures (self : Obj) (s : S) (uri : string) :
  _ctx self = None ->
  let r := exec handle (init uri) self s in
  let address := chosen_uri uri self in
  (address = ""%string ->
   r = ([], (Raised (Exception_ "No device found"), store_uri self uri), s))
  /\ (address <> ""%string ->
      forall e s1,
        handle s (iio_Context address) = (inr e, s1) ->
        r = ([Ev (iio_Context address) (A_raise e)],
             (Raised (Exception_ "No device found"), store_uri self uri), s1))
  /\ (address <> ""%string ->
      forall ctx s1 s2,
        handle s (iio_Context address) = (inl ctx, s1) ->
        handle s1 (find_device ctx "cf-ad9361-lpc") = (inl None, s2) ->
        trace_of r = [Ev (iio_Context address) (A_handle (Some ctx));
                      Ev (find_device ctx "cf-ad9361-lpc") (A_handle None)]
        /\ outcome_of r = Raised (Exception_ "No device found with name cf-ad9361-lpc"))
  /\ (outcome_of r <> Returned tt ->
      rx_data (self_of r) = rx_data self
      /\ tx_data (self_of r) = tx_data self
      /\ _rx_buffer_size (self_of r) = _rx_buffer_size self).
Proof.
  intros Hctx. cbv zeta.
  unfold exec, init, open_context, outcome_of, self_of, trace_of, chosen_uri, store_uri,
    _rx_data_device_name.
  destruct self as [u ua c rx bs rd td]. cbn in Hctx. subst c. cbn.
  destruct (String.eqb uri "") eqn:Hu; cbn.
  - apply String.eqb_eq in Hu. subst uri.
    destruct (String.eqb ua "") eqn:Ha; cbn.
    + apply String.eqb_eq in Ha. subst ua.
      repeat split; try reflexivity; intros; congruence.
    + apply String.eqb_neq in Ha.
      split; [intros; congruence|].
      split; [intros _ e s1 He; rewrite He; reflexivity|].
      split; [intros _ ctx s1 s2 H1 H2; rewrite H1; cbn; rewrite H2; cbn;
              split; reflexivity|].
      answer_call handle; [|repeat split; reflexivity].
      answer_call handle; [|repeat split; reflexivity].
      destruct x0 as [dev|]; cbn; [|repeat split; reflexivity].
      answer_call handle; [|repeat split; reflexivity].
      answer_call handle; [|repeat split; reflexivity].
      intros Hne. now elim Hne.
  - apply String.eqb_neq in Hu.
    split; [intros; congruence|].
    split; [intros _ e s1 He; rewrite He; reflexivity|].
    split; [intros _ ctx s1 s2 H1 H2; rewrite H1; cbn; rewrite H2; cbn;
            split; reflexivity|].
    answer_call handle; [|repeat split; reflexivity].
    answer_call handle; [|repeat split; reflexivity].
    destruct x0 as [dev|]; cbn; [|repeat split; reflexivity].
    answer_call handle; [|repeat split; reflexivity].
    answer_call handle; [|repeat split; reflexivity].
    intros Hne. now elim Hne.
Qed.

(** X16: the setter of [rx_hardwaregain] starts by reading the gain-control
    mode; it makes at most one more call, the write of the value to the RX
    [hardwaregain] attribute, and only after the mode was answered as
    [manual]; an exception while reading the mode means no write. *)
Theorem rx_hardwaregain_guard (self : Obj) (s : S) (value : pyval) :
  let r := exec handle (rx_hardwaregain_set value) self s in
  self_of r = self
  /\ (exists a, nth_error (trace_of r) 0 = Some (Ev read_gain_mode a))
  /\ (forall i c a,
        nth_error (trace_of r) (Datatypes.S i) = Some (Ev c a) ->
        i = 0%nat
        /\ c = set_iio_attr_float "voltage0" "hardwaregain" false value
        /\ nth_error (trace_of r) 0 = Some (Ev read_gain_mode (A_str "manual"))).
Proof.
  cbv zeta. unfold exec, rx_hardwaregain_set, gain_control_mode, self_of, trace_of. cbn.
  destruct (handle s read_gain_mode) as [[mode|e] s1]; cbn.
  - destruct (String.eqb mode "manual") eqn:Hm; cbn.
    + apply String.eqb_eq in Hm. subst mode.
      answer_call handle.
      all: split; [reflexivity | split; [eexists; reflexivity|]].
      all: intros i c a Hi; destruct i as [|i]; cbn in Hi;
        [injection Hi as <- _; repeat split | destruct i; discriminate].
    + split; [reflexivity | split; [eexists; reflexivity|]].
      intros i c a Hi. destruct i; discriminate.
  - split; [reflexivity | split; [eexists; reflexivity|]].
    intros i c a Hi. destruct i; discriminate.
Qed.

End Object.

(** ** Reading back the decimal text of an integer, and the fields of [tx_path_rates] *)





















(** ** The further properties on the bench device *)

Module OnBenchMore.

Import ad936x.

Lemma sample_rate_first_call_witness :
  0 < rate_floor
  /\ exec Bench.handle (sample_rate_set 0) Bench.fresh Bench.idle
     = ([],
        (Raised (ValueError "Error: Does not currently support sample rates below 521e3"),
         Bench.fresh),
        Bench.idle)
  /\ rate_floor <= 1000000
  /\ exists a,
       nth_error (trace_of (exec Bench.handle (sample_rate_set 1000000)
                                 Bench.fresh Bench.idle)) 0
       = Some (Ev read_rate a).
Proof.
  assert (H0 : 0 < rate_floor) by (unfold rate_floor; lia).
  assert (H1 : rate_floor <= 1000000) by (unfold rate_floor; lia).
  split; [exact H0|].
  split; [exact (proj1 (sample_rate_first_call _ Bench.handle Bench.fresh Bench.idle 0) H0)|].
  split; [exact H1|].
  exact (proj2 (sample_rate_first_call _ Bench.handle Bench.fresh Bench.idle 1000000) H1).
Defined.

Lemma sample_rate_calls_witness :
  nth_error (trace_of (exec Bench.handle (sample_rate_set 1000000) Bench.fresh Bench.idle)) 3
  = Some (Ev read_tx_path_rates (A_str Bench.rates_30720000))
  /\ (3 < 9)%nat
  /\ In read_tx_path_rates (setter_calls 1000000)
  /\ narrowband 1000000.
Proof.
  assert (H : nth_error (trace_of (exec Bench.handle (sample_rate_set 1000000)
                                        Bench.fresh Bench.idle)) 3
              = Some (Ev read_tx_path_rates (A_str Bench.rates_30720000)))
    by (vm_compute; reflexivity).
  split; [exact H|].
  destruct (sample_rate_calls _ Bench.handle Bench.fresh Bench.idle 1000000 3 _ _ H)
    as (Hi & Hin & Hn).
  split; [exact Hi | split; [exact Hin | exact (Hn eq_refl)]].
Defined.

Lemma sample_rate_failure_stops_witness :
  nth_error (trace_of (exec Bench.faulty (sample_rate_set 1000000) Bench.fresh Bench.idle)) 2
  = Some (Ev (write_fir_config (payload (filter_table 1000000)))
             (A_raise (TransportError "write refused")))
  /\ length (trace_of (exec Bench.faulty (sample_rate_set 1000000) Bench.fresh Bench.idle))
     = 3%nat
  /\ outcome_of (exec Bench.faulty (sample_rate_set 1000000) Bench.fresh Bench.idle)
     = Raised (TransportError "write refused").
Proof.
  assert (H : nth_error (trace_of (exec Bench.faulty (sample_rate_set 1000000)
                                        Bench.fresh Bench.idle)) 2
              = Some (Ev (write_fir_config (payload (filter_table 1000000)))
                         (A_raise (TransportError "write refused"))))
    by (vm_compute; reflexivity).
  split; [exact H|].
  exact (sample_rate_failure_stops _ Bench.faulty Bench.fresh Bench.idle 1000000 2 _ _ H).
Defined.

Lemma sample_rate_returns_iff_witness :
  rate_floor <= 30000000
  /\ outcome_of (exec Bench.handle (sample_rate_set 30000000) Bench.fresh Bench.idle)
     = Returned tt
  /\ answered (trace_of (exec Bench.handle (sample_rate_set 30000000)
                              Bench.fresh Bench.idle)) = true
  /\ rate_floor <= 1000000
  /\ answered (trace_of (exec Bench.handle (sample_rate_set 1000000)
                              Bench.fresh Bench.idle)) = true
  /\ outcome_of (exec Bench.handle (sample_rate_set 1000000) Bench.fresh Bench.idle)
     = Returned tt.
Proof.
  assert (H1 : rate_floor <= 30000000) by (unfold rate_floor; lia).
  assert (H2 : outcome_of (exec Bench.handle (sample_rate_set 30000000)
                                Bench.fresh Bench.idle) = Returned tt)
    by (vm_compute; reflexivity).
  assert (H3 : rate_floor <= 1000000) by (unfold rate_floor; lia).
  assert (H4 : answered (trace_of (exec Bench.handle (sample_rate_set 1000000)
                                        Bench.fresh Bench.idle)) = true)
    by (vm_compute; reflexivity).
  split; [exact H1 | split; [exact H2|]].
  split; [exact (proj1 (proj1 (sample_rate_returns_iff _ Bench.handle Bench.fresh
                                 Bench.idle 30000000 H1) H2))|].
  split; [exact H3 | split; [exact H4|]].
  apply (proj2 (sample_rate_returns_iff _ Bench.handle Bench.fresh Bench.idle 1000000 H3)).
  split; [exact H4|]. intros _.
  exists Bench.rates_30720000, 64.
  split; [vm_compute; right; right; right; left; reflexivity | vm_compute; reflexivity].
Defined.

Lemma rates_error_aborts_witness :
  rate_floor <= 1000000
  /\ answered (trace_of (exec Bench.handle (sample_rate_set 1000000)
                              Bench.fresh Bench.short_rates)) = true
  /\ In (Ev read_tx_path_rates (A_str (Bench.tx_path_rates Bench.short_rates)))
        (trace_of (exec Bench.handle (sample_rate_set 1000000)
                        Bench.fresh Bench.short_rates))
  /\ max_rate_of (Bench.tx_path_rates Bench.short_rates)
     = inr (IndexError "list index out of range")
  /\ outcome_of (exec Bench.handle (sample_rate_set 1000000) Bench.fresh Bench.short_rates)
     = Raised (IndexError "list index out of range").
Proof.
  assert (Hr : rate_floor <= 1000000) by (unfold rate_floor; lia).
  assert (Ha : answered (trace_of (exec Bench.handle (sample_rate_set 1000000)
                                        Bench.fresh Bench.short_rates)) = true)
    by (vm_compute; reflexivity).
  assert (Hin : In (Ev read_tx_path_rates (A_str (Bench.tx_path_rates Bench.short_rates)))
                   (trace_of (exec Bench.handle (sample_rate_set 1000000)
                                   Bench.fresh Bench.short_rates)))
    by (vm_compute; right; right; right; left; reflexivity).
  assert (He : max_rate_of (Bench.tx_path_rates Bench.short_rates)
               = inr (IndexError "list index out of range"))
    by (vm_compute; reflexivity).
  repeat (split; [assumption|]).
  exact (proj1 (rates_error_aborts _ Bench.handle Bench.fresh Bench.short_rates
                  1000000 _ _ Hr Ha Hin He)).
Defined.

Lemma max_rate_of_raises_witness :
  (length (Py.split " " (Bench.tx_path_rates Bench.short_rates)) <= 5)%nat
  /\ (exists err, max_rate_of (Bench.tx_path_rates Bench.short_rates) = inr err)
  /\ token_value Bench.zero_tx 1 = ok 122880000
  /\ token_value Bench.zero_tx 5 = ok 0
  /\ max_rate_of Bench.zero_tx
     = inr (ZeroDivisionError "integer division or modulo by zero").
Proof.
  assert (Hl : (length (Py.split " " (Bench.tx_path_rates Bench.short_rates)) <= 5)%nat)
    by (vm_compute; lia).
  assert (Hd : token_value Bench.zero_tx 1 = ok 122880000) by (vm_compute; reflexivity).
  assert (Ht : token_value Bench.zero_tx 5 = ok 0) by (vm_compute; reflexivity).
  split; [exact Hl|].
  split; [exact (proj1 (max_rate_of_raises _) Hl)|].
  split; [exact Hd | split; [exact Ht|]].
  exact (proj2 (max_rate_of_raises Bench.zero_tx) _ Hd Ht).
Defined.

Lemma narrowband_bootstrap_iff_witness :
  rate_floor <= 1000000
  /\ answered (trace_of (exec Bench.handle (sample_rate_set 1000000)
                              Bench.fresh Bench.idle)) = true
  /\ In (Ev read_tx_path_rates (A_str Bench.rates_30720000))
        (trace_of (exec Bench.handle (sample_rate_set 1000000) Bench.fresh Bench.idle))
  /\ token_value Bench.rates_30720000 1 = ok 122880000
  /\ token_value Bench.rates_30720000 5 = ok 30720000
  /\ 30720000 <> 0
  /\ 122880000 / 30720000 < 8
  /\ exists pre,
       trace_of (exec Bench.handle (sample_rate_set 1000000) Bench.fresh Bench.idle)
       = (pre ++ [Ev (write_rate bootstrap_rate) A_done;
                  Ev (write_fir_en 1) A_done;
                  Ev (write_rate 1000000) A_done])%list.
Proof.
  assert (Hr : rate_floor <= 1000000) by (unfold rate_floor; lia).
  assert (Ha : answered (trace_of (exec Bench.handle (sample_rate_set 1000000)
                                        Bench.fresh Bench.idle)) = true)
    by (vm_compute; reflexivity).
  assert (Hin : In (Ev read_tx_path_rates (A_str Bench.rates_30720000))
                   (trace_of (exec Bench.handle (sample_rate_set 1000000)
                                   Bench.fresh Bench.idle)))
    by (vm_compute; right; right; right; left; reflexivity).
  assert (Hd : token_value Bench.rates_30720000 1 = ok 122880000)
    by (vm_compute; reflexivity).
  assert (Ht : token_value Bench.rates_30720000 5 = ok 30720000)
    by (vm_compute; reflexivity).
  assert (Hz : 30720000 <> 0) by lia.
  assert (Hq : 122880000 / 30720000 < 8) by (vm_compute; reflexivity).
  repeat (split; [assumption|]).
  exact (proj2 (proj2 (proj2 (narrowband_bootstrap_iff _ Bench.handle Bench.fresh
                                Bench.idle 1000000 _ _ _ Hr Ha Hin Hd Ht Hz))) Hq).
Defined.

Lemma disable_when_enabled_witness :
  nth_error (trace_of (exec Bench.handle (sample_rate_set 1000000) Bench.fresh Bench.idle)) 0
  = Some (Ev read_rate (A_int 30720000))
  /\ nth_error (trace_of (exec Bench.handle (sample_rate_set 1000000)
                               Bench.fresh Bench.idle)) 1
     = Some (Ev read_fir_en (A_int 0))
  /\ (exists a,
        nth_error (trace_of (exec Bench.handle (sample_rate_set 1000000)
                                  Bench.fresh Bench.idle)) 2
        = Some (Ev (write_fir_config (payload (filter_table 1000000))) a))
  /\ nth_error (trace_of (exec Bench.handle (sample_rate_set 1000000)
                               Bench.fresh Bench.filtering_wide)) 0
     = Some (Ev read_rate (A_int 30720000))
  /\ nth_error (trace_of (exec Bench.handle (sample_rate_set 1000000)
                               Bench.fresh Bench.filtering_wide)) 1
     = Some (Ev read_fir_en (A_int 1))
  /\ 1 <> 0
  /\ ~ narrowband 30720000
  /\ exists a,
       nth_error (trace_of (exec Bench.handle (sample_rate_set 1000000)
                                 Bench.fresh Bench.filtering_wide)) 2
       = Some (Ev (write_fir_en 0) a).
Proof.
  assert (A0 : nth_error (trace_of (exec Bench.handle (sample_rate_set 1000000)
                                         Bench.fresh Bench.idle)) 0
               = Some (Ev read_rate (A_int 30720000))) by (vm_compute; reflexivity).
  assert (A1 : nth_error (trace_of (exec Bench.handle (sample_rate_set 1000000)
                                         Bench.fresh Bench.idle)) 1
               = Some (Ev read_fir_en (A_int 0))) by (vm_compute; reflexivity).
  assert (B0 : nth_error (trace_of (exec Bench.handle (sample_rate_set 1000000)
                                         Bench.fresh Bench.filtering_wide)) 0
               = Some (Ev read_rate (A_int 30720000))) by (vm_compute; reflexivity).
  assert (B1 : nth_error (trace_of (exec Bench.handle (sample_rate_set 1000000)
                                         Bench.fresh Bench.filtering_wide)) 1
               = Some (Ev read_fir_en (A_int 1))) by (vm_compute; reflexivity).
  assert (Hen : 1 <> 0) by lia.
  assert (Hw : ~ narrowband 30720000) by (unfold narrowband; lia).
  split; [exact A0 | split; [exact A1|]].
  split; [exact (proj1 (proj1 (disable_when_enabled _ Bench.handle Bench.fresh Bench.idle
                                 1000000 _ _ A0 A1) eq_refl))|].
  split; [exact B0 | split; [exact B1 | split; [exact Hen | split; [exact Hw|]]]].
  exact (proj2 (disable_when_enabled _ Bench.handle Bench.fresh Bench.filtering_wide
                  1000000 _ _ B0 B1) Hen Hw).
Defined.

Lemma rx_only_then_get_witness :
  Bench.handle Bench.even_buffer rx_buffered_data
  = (inl [1#1; 2#1; 3#1; 4#1], Bench.even_buffer)
  /\ length [1#1; 2#1; 3#1; 4#1] = (2 * 2)%nat
  /\ exec Bench.handle (rx_only true)
       (self_of (exec Bench.handle (rx_only false) Bench.fresh Bench.even_buffer))
       (device_of (exec Bench.handle (rx_only false) Bench.fresh Bench.even_buffer))
     = ([], (Returned (RxList (pairs [1#1; 2#1; 3#1; 4#1])),
             self_of (exec Bench.handle (rx_only false) Bench.fresh Bench.even_buffer)),
        Bench.even_buffer).
Proof.
  assert (Hd : Bench.handle Bench.even_buffer rx_buffered_data
               = (inl [1#1; 2#1; 3#1; 4#1], Bench.even_buffer)) by reflexivity.
  assert (Hl : length [1#1; 2#1; 3#1; 4#1] = (2 * 2)%nat) by reflexivity.
  split; [exact Hd | split; [exact Hl|]].
  exact (proj1 (rx_only_then_get _ Bench.handle Bench.fresh Bench.even_buffer
                  Bench.even_buffer _ 2 Hd Hl)).
Defined.

Lemma init_success_witness :
  _ctx Bench.fresh = None
  /\ outcome_of (exec Bench.handle (init "ip:pluto") Bench.fresh Bench.idle) = Returned tt
  /\ exists ctx dev,
       trace_of (exec Bench.handle (init "ip:pluto") Bench.fresh Bench.idle)
       = [Ev (iio_Context (chosen_uri "ip:pluto" Bench.fresh)) (A_handle (Some ctx));
          Ev (find_device ctx "cf-ad9361-lpc") (A_handle (Some dev));
          Ev rx_init_channels A_done;
          Ev tx_init_channels A_done]
       /\ self_of (exec Bench.handle (init "ip:pluto") Bench.fresh Bench.idle)
          = mkObj (Some "ip:pluto"%string) (_uri_auto Bench.fresh) (Some ctx) (Some dev)
                  (Some 1024) (Some (RxList [])) (Some []).
Proof.
  assert (Hc : _ctx Bench.fresh = None) by reflexivity.
  assert (Ho : outcome_of (exec Bench.handle (init "ip:pluto") Bench.fresh Bench.idle)
               = Returned tt) by reflexivity.
  split; [exact Hc | split; [exact Ho|]].
  exact (init_success _ Bench.handle Bench.fresh Bench.idle "ip:pluto" Hc Ho).
Defined.

Lemma init_once_witness :
  _ctx Bench.fresh = None
  /\ outcome_of (exec Bench.handle (init "ip:pluto") Bench.fresh Bench.idle) = Returned tt
  /\ exec Bench.handle (init "ip:other")
       (self_of (exec Bench.handle (init "ip:pluto") Bench.fresh Bench.idle))
       (device_of (exec Bench.handle (init "ip:pluto") Bench.fresh Bench.idle))
     = ([], (Returned tt, self_of (exec Bench.handle (init "ip:pluto") Bench.fresh Bench.idle)),
        device_of (exec Bench.handle (init "ip:pluto") Bench.fresh Bench.idle)).
Proof.
  assert (Hc : _ctx Bench.fresh = None) by reflexivity.
  assert (Ho : outcome_of (exec Bench.handle (init "ip:pluto") Bench.fresh Bench.idle)
               = Returned tt) by reflexivity.
  split; [exact Hc | split; [exact Ho|]].
  exact (proj2 (init_once _ Bench.handle Bench.fresh Bench.idle "ip:pluto") Hc Ho
           "ip:other"%string).
Defined.

Lemma init_failures_witness :
  _ctx Bench.fresh = None
  /\ chosen_uri "" Bench.fresh = ""%string
  /\ exec Bench.faulty (init "") Bench.fresh Bench.idle
     = ([], (Raised (Exception_ "No device found"), store_uri Bench.fresh ""), Bench.idle)
  /\ chosen_uri "ip:down" Bench.fresh <> ""%string
  /\ Bench.faulty Bench.idle (iio_Context (chosen_uri "ip:down" Bench.fresh))
     = (inr (TransportError "connection refused"), Bench.idle)
  /\ outcome_of (exec Bench.faulty (init "ip:down") Bench.fresh Bench.idle)
     = Raised (Exception_ "No device found")
  /\ Bench.faulty Bench.idle (iio_Context (chosen_uri "ip:pluto" Bench.fresh))
     = (inl 1, Bench.idle)
  /\ Bench.faulty Bench.idle (find_device 1 "cf-ad9361-lpc") = (inl None, Bench.idle)
  /\ outcome_of (exec Bench.faulty (init "ip:pluto") Bench.fresh Bench.idle)
     = Raised (Exception_ "No device found with name cf-ad9361-lpc")
  /\ rx_data (self_of (exec Bench.faulty (init "ip:pluto") Bench.fresh Bench.idle)) = None.
Proof.
  assert (Hc : _ctx Bench.fresh = None) by reflexivity.
  assert (He : chosen_uri "" Bench.fresh = ""%string) by reflexivity.
  assert (Hd : chosen_uri "ip:down" Bench.fresh <> ""%string) by discriminate.
  assert (Hp : chosen_uri "ip:pluto" Bench.fresh <> ""%string) by discriminate.
  assert (Hdown : Bench.faulty Bench.idle (iio_Context (chosen_uri "ip:down" Bench.fresh))
                  = (inr (TransportError "connection refused"), Bench.idle))
    by reflexivity.
  assert (Hup : Bench.faulty Bench.idle (iio_Context (chosen_uri "ip:pluto" Bench.fresh))
                = (inl 1, Bench.idle)) by reflexivity.
  assert (Hnone : Bench.faulty Bench.idle (find_device 1 "cf-ad9361-lpc")
                  = (inl None, Bench.idle)) by reflexivity.
  split; [exact Hc | split; [exact He|]].
  split; [exact (proj1 (init_failures _ Bench.faulty Bench.fresh Bench.idle "" Hc) He)|].
  split; [exact Hd | split; [exact Hdown|]].
  split.
  { rewrite (proj1 (proj2 (init_failures _ Bench.faulty Bench.fresh Bench.idle
                             "ip:down" Hc)) Hd _ _ Hdown).
    reflexivity. }
  split; [exact Hup | split; [exact Hnone|]].
  destruct (init_failures _ Bench.faulty Bench.fresh Bench.idle "ip:pluto" Hc)
    as (_ & _ & Hmissing & Hkeep).
  destruct (Hmissing Hp _ _ _ Hup Hnone) as [_ Hout].
  split; [exact Hout|].
  assert (Hnot : outcome_of (exec Bench.faulty (init "ip:pluto") Bench.fresh Bench.idle)
                 <> Returned tt) by (rewrite Hout; discriminate).
  exact (proj1 (Hkeep Hnot)).
Defined.

Lemma rx_hardwaregain_guard_witness :
  nth_error (trace_of (exec Bench.handle (rx_hardwaregain_set (PyFloat (10#1)))
                            Bench.fresh Bench.filtering)) 1
  = Some (Ev (set_iio_attr_float "voltage0" "hardwaregain" false (PyFloat (10#1))) A_done)
  /\ nth_error (trace_of (exec Bench.handle (rx_hardwaregain_set (PyFloat (10#1)))
                               Bench.fresh Bench.filtering)) 0
     = Some (Ev read_gain_mode (A_str "manual")).
Proof.
  assert (H : nth_error (trace_of (exec Bench.handle (rx_hardwaregain_set (PyFloat (10#1)))
                                        Bench.fresh Bench.filtering)) 1
              = Some (Ev (set_iio_attr_float "voltage0" "hardwaregain" false
                            (PyFloat (10#1))) A_done)) by reflexivity.
  split; [exact H|].
  exact (proj2 (proj2 (proj2 (proj2 (rx_hardwaregain_guard _ Bench.handle Bench.fresh
                                       Bench.filtering (PyFloat (10#1)))) 0%nat _ _ H))).
Defined.


End OnBenchMore.
